(** * Subquery: orchestration loop, call normalisation and text-call extraction

    A shallow embedding of [subquery.py] (Open WebUI "Subquery" tool) and
    the proofs of its specified properties.

    Conventions of the embedding.
    - A Python [str] is a [string]; each [ascii] is one code point in the
      range 0..255 (the Latin-1 block of Unicode).  Character classes
      ([str.isdigit], [str.isspace], the regular expression class [\s],
      case folding under [re.IGNORECASE]) are those of Python 3 on that
      range.
    - Python values that travel through the loop (messages, tool calls,
      JSON arguments) are [pyval]; a [dict] is an association list in
      insertion order with string keys.
    - Code that can raise returns [result]; the loop itself runs in a
      state-and-exception monad [M] over the conversation and a trace of
      the calls made to the collaborators.
    - The collaborators (completion service, tool registry, tools,
      [UserModel], the [json] module) are functions of a [Host]; they see
      the point of time they are called at, and do not change the objects
      they are handed.  The notification sink does not raise; the wording
      of a status line, picked at random, is left out of its event. *)

From Stdlib Require Import List String Ascii ZArith Bool Lia.
From Stdlib Require Import DecimalString.
From Stdlib Require DecimalNat DecimalFacts.
Import ListNotations.

Local Open Scope string_scope.
Local Open Scope list_scope.
Local Open Scope Z_scope.

Set Implicit Arguments.

(* ------------------------------------------------------------------ *)
(** ** Python values and exceptions *)

(** A float is carried by its [repr]; the program never computes on one. *)
#[warnings="-register-all"]
Inductive pyval : Type :=
| PNone
| PBool (b : bool)
| PInt (z : Z)
| PFloat (repr : string)
| PStr (s : string)
| PList (l : list pyval)
| PDict (d : list (string * pyval)).

Definition pydict : Type := list (string * pyval).

Inductive exn : Type :=
| ValueError (what : string)
| KeyError (key : string)
| IndexError
| TypeError (what : string)
| AttributeError (what : string)
| RuntimeError (msg : string)
| JSONDecodeError
| HostError (what : string)   (* raised inside a collaborator *)
| NotModelled (what : string). (* behaviour outside this embedding *)

Inductive result (A : Type) : Type :=
| Ok (a : A)
| Raise (e : exn).
Arguments Ok {A} a.
Arguments Raise {A} e.

Definition rbind {A B} (r : result A) (f : A -> result B) : result B :=
  match r with
  | Ok a => f a
  | Raise e => Raise e
  end.

Declare Scope result_scope.
Delimit Scope result_scope with res.
Notation "x <-? r ;; k" := (rbind r (fun x => k))
  (at level 61, r at next level, right associativity) : result_scope.

(** Truth value of an object ([if x], [x or y], [not x]). *)
Definition py_truthy (v : pyval) : bool :=
  match v with
  | PNone => false
  | PBool b => b
  | PInt z => negb (z =? 0)
  | PFloat r => negb (String.eqb r "0.0" || String.eqb r "-0.0")
  | PStr s => negb (String.eqb s EmptyString)
  | PList l => match l with [] => false | _ => true end
  | PDict d => match d with [] => false | _ => true end
  end.

(** [x or y]. *)
Definition py_or (x y : pyval) : pyval :=
  if py_truthy x then x else y.

(** [isinstance(v, int)]: [bool] is a subclass of [int]. *)
Definition isinstance_int (v : pyval) : bool :=
  match v with
  | PInt _ | PBool _ => true
  | _ => false
  end.

Definition isinstance_dict (v : pyval) : bool :=
  match v with
  | PDict _ => true
  | _ => false
  end.

(* ------------------------------------------------------------------ *)
(** ** Dictionaries *)

Section Dict.
Variable V : Type.

(** [d.get(k)]. *)
Fixpoint dict_get (k : string) (d : list (string * V)) : option V :=
  match d with
  | [] => None
  | (k', v) :: d' => if String.eqb k k' then Some v else dict_get k d'
  end.

(** [d.get(k, default)]. *)
Definition dict_get_default (k : string) (default : V) (d : list (string * V)) : V :=
  match dict_get k d with
  | Some v => v
  | None => default
  end.

(** [d[k] = v]: an existing key keeps its place, a new key goes last. *)
Fixpoint dict_set (k : string) (v : V) (d : list (string * V)) : list (string * V) :=
  match d with
  | [] => [(k, v)]
  | (k', v') :: d' =>
      if String.eqb k k' then (k', v) :: d' else (k', v') :: dict_set k v d'
  end.

(** [d.update(other)]. *)
Definition dict_update (other d : list (string * V)) : list (string * V) :=
  fold_left (fun acc kv => dict_set (fst kv) (snd kv) acc) other d.

(** [k in d]. *)
Definition dict_mem (k : string) (d : list (string * V)) : bool :=
  match dict_get k d with
  | Some _ => true
  | None => false
  end.
End Dict.

(** [d[k]]. *)
Definition dict_item (k : string) (d : pydict) : result pyval :=
  match dict_get k d with
  | Some v => Ok v
  | None => Raise (KeyError k)
  end.

(* ------------------------------------------------------------------ *)
(** ** Strings *)

Definition code (c : ascii) : nat := nat_of_ascii c.

(** [str.isspace] on one character, also the class [\s]: TAB..CR,
    FS..US, SPACE, NEL (U+0085) and NBSP (U+00A0). *)
Definition py_isspace (c : ascii) : bool :=
  let n := code c in
  ((9 <=? n) && (n <=? 13) || (28 <=? n) && (n <=? 32)
   || (n =? 133) || (n =? 160))%nat.

(** Characters with Numeric_Type=Decimal: the ASCII digits. *)
Definition is_decimal (c : ascii) : bool :=
  let n := code c in ((48 <=? n) && (n <=? 57))%nat.

(** Characters with Numeric_Type=Digit or Decimal: the ASCII digits and
    the superscripts U+00B2, U+00B3 and U+00B9. *)
Definition is_digit (c : ascii) : bool :=
  let n := code c in
  (is_decimal c || (n =? 178) || (n =? 179) || (n =? 185))%nat.

Fixpoint str_forallb (p : ascii -> bool) (s : string) : bool :=
  match s with
  | EmptyString => true
  | String c s' => p c && str_forallb p s'
  end.

(** [s.isdigit()]. *)
Definition isdigit (s : string) : bool :=
  match s with
  | EmptyString => false
  | _ => str_forallb is_digit s
  end.

Fixpoint digits_value (acc : Z) (s : string) : Z :=
  match s with
  | EmptyString => acc
  | String c s' => digits_value (10 * acc + Z.of_nat (code c - 48)) s'
  end.

(** [sys.get_int_max_str_digits()]: CPython (3.11 and later) refuses to
    convert a decimal string of more digits, leading zeros counted; 4300 is
    its default. *)
Definition int_max_str_digits : Z := 4300.

(** [int(s)] for a string without sign, blanks or underscores (the only
    strings [isdigit] lets through): every character has to be a decimal
    digit, and there may be no more of them than the interpreter's limit. *)
Definition py_int (s : string) : result Z :=
  match s with
  | EmptyString => Raise (ValueError "invalid literal for int()")
  | _ => if str_forallb is_decimal s
         then if Z.of_nat (String.length s) <=? int_max_str_digits
              then Ok (digits_value 0 s)
              else Raise (ValueError "Exceeds the limit for integer string conversion")
         else Raise (ValueError "invalid literal for int()")
  end.

(** [str(n)] for an integer. *)
Definition str_of_nat (n : nat) : string :=
  NilZero.string_of_uint (Nat.to_uint n).

Definition str_of_Z (z : Z) : string :=
  NilZero.string_of_int (Z.to_int z).

(** [s.lstrip()], [s.rstrip()], [s.strip()]. *)
Fixpoint lstrip (s : string) : string :=
  match s with
  | EmptyString => EmptyString
  | String c s' => if py_isspace c then lstrip s' else s
  end.

Fixpoint rstrip (s : string) : string :=
  match s with
  | EmptyString => EmptyString
  | String c s' =>
      match rstrip s' with
      | EmptyString => if py_isspace c then EmptyString else String c EmptyString
      | r => String c r
      end
  end.

Definition strip (s : string) : string := rstrip (lstrip s).

(** [needle in hay]. *)
Fixpoint contains (needle hay : string) : bool :=
  String.prefix needle hay ||
  match hay with
  | EmptyString => false
  | String _ hay' => contains needle hay'
  end.

(** [s.split(sep, 1)[0]]: the text before the first [sep], all of [s]
    when there is none. *)
Fixpoint split_head (sep s : string) : string :=
  if String.prefix sep s then EmptyString
  else match s with
       | EmptyString => EmptyString
       | String c s' => String c (split_head sep s')
       end.

(* ------------------------------------------------------------------ *)
(** ** Conversation state builder *)

(** [l[start:]] with Python's treatment of a negative or too large
    [start]. *)
Definition slice_from {A} (start : Z) (l : list A) : list A :=
  let len := Z.of_nat (List.length l) in
  let lo := if start <? 0 then Z.max 0 (start + len) else Z.min start len in
  skipn (Z.to_nat lo) l.

Definition role_kept (r : pyval) : bool :=
  match r with
  | PStr s => String.eqb s "system" || String.eqb s "user" || String.eqb s "assistant"
  | _ => false
  end.

(** The body of the loop of [_tail_messages]: what one entry [m]
    contributes to [out]. *)
Definition tail_entry (m : pyval) : list pyval :=
  match m with
  | PDict d =>
      match dict_get "role" d with
      | Some r =>
          if role_kept r
          then [PDict [("role", r); ("content", dict_get_default "content" (PStr EmptyString) d)]]
          else []
      | None => []
      end
  | _ => []
  end.

Definition _tail_messages (msgs : list pyval) (n : Z) : list pyval :=
  flat_map tail_entry (slice_from (- n) msgs).

Definition user_message (prompt : string) : pyval :=
  PDict [("role", PStr "user"); ("content", PStr prompt)].

(** What [subquery] puts in [messages] before the prompt: the guard
    [if include_recent_messages and __messages__] and the call of
    [_tail_messages]. *)
Definition history_tail (include_recent_messages : Z)
    (__messages__ : option (list pyval)) : list pyval :=
  match __messages__ with
  | Some (m :: ms) =>
      if include_recent_messages =? 0 then []
      else _tail_messages (m :: ms) include_recent_messages
  | _ => []
  end.

Definition initial_messages (prompt : string) (include_recent_messages : Z)
    (__messages__ : option (list pyval)) : list pyval :=
  history_tail include_recent_messages __messages__ ++ [user_message prompt].

(* ------------------------------------------------------------------ *)
(** ** Call normaliser *)

Local Open Scope result_scope.

(** Lines 53-57: the value stored under ["index"] for the entry at
    position [i]. *)
Definition resolve_index (i : nat) (tc : pydict) : result pyval :=
  let idx := dict_get_default "index" (PInt (Z.of_nat i)) tc in
  match idx with
  | PStr s =>
      if isdigit s
      then z <-? py_int s ;; Ok (PInt z)
      else Ok (PInt (Z.of_nat i))
  | _ => if isinstance_int idx then Ok idx else Ok (PInt (Z.of_nat i))
  end.

(** The loop over [enumerate(tool_calls)], started at position [i]. *)
Fixpoint normalize_from (i : nat) (tool_calls : list pyval) : result (list pyval) :=
  match tool_calls with
  | [] => Ok []
  | PDict d :: rest =>
      idx <-? resolve_index i d ;;
      out <-? normalize_from (S i) rest ;;
      Ok (PDict (dict_set "index" idx d) :: out)
  | _ :: rest => normalize_from (S i) rest
  end.

Definition _normalize_tool_calls (tool_calls : list pyval) : result (list pyval) :=
  normalize_from 0 tool_calls.

(* ------------------------------------------------------------------ *)
(** ** Text call extractor *)

(** Lower-casing of one character, as [re.IGNORECASE] applies it before
    comparing with a pattern letter: A-Z and the Latin-1 capitals. *)
Definition lower (c : ascii) : ascii :=
  let n := code c in
  if ((65 <=? n) && (n <=? 90)
      || (192 <=? n) && (n <=? 222) && negb (n =? 215))%nat
  then ascii_of_nat (n + 32) else c.

(** Match of the literal [pat] (written in lower case) at the start of
    [s] under [re.IGNORECASE]; the text after the match.  Of the
    characters of the pattern of line 69 only the letter [i] has matches
    that no [string] holds (U+0130 and U+0131, beyond code point 255). *)
Fixpoint imatch (pat s : string) : option string :=
  match pat with
  | EmptyString => Some s
  | String p pat' =>
      match s with
      | EmptyString => None
      | String c s' => if Ascii.eqb (lower c) p then imatch pat' s' else None
      end
  end.

(** The class [[^>\s]]. *)
Definition name_char (c : ascii) : bool :=
  negb (Ascii.eqb c ">") && negb (py_isspace c).

(** The greedy [[^>\s]+] can only be followed by [>] after its longest
    run: every shorter run is followed by a character of the class. *)
Fixpoint take_name (s : string) : string * string :=
  match s with
  | EmptyString => (EmptyString, EmptyString)
  | String c s' =>
      if name_char c
      then let (n, r) := take_name s' in (String c n, r)
      else (EmptyString, s)
  end.

(** The lazy [(.*?)] followed by the literal [close]: the shortest body,
    under [re.DOTALL] any character, and the text after [close]. *)
Fixpoint lazy_until (close s : string) : option (string * string) :=
  match imatch close s with
  | Some rest => Some (EmptyString, rest)
  | None =>
      match s with
      | EmptyString => None
      | String c s' =>
          match lazy_until close s' with
          | Some (b, r) => Some (String c b, r)
          | None => None
          end
      end
  end.

(** One match of [<tag=([^>\s]+)>(.*?)</tag>] at the start of [s]: the
    two groups and the text after the match. *)
Definition match_block (tag s : string) : option (string * string * string) :=
  match imatch ("<" ++ tag ++ "=") s with
  | None => None
  | Some r1 =>
      match take_name r1 with
      | (String c n, String ">" r2) =>
          match lazy_until ("</" ++ tag ++ ">") r2 with
          | Some (body, rest) => Some (String c n, body, rest)
          | None => None
          end
      | _ => None
      end
  end.

(** [re.findall] of that pattern: matches from left to right, the search
    resuming where the previous match ended ([skip] characters on). *)
Fixpoint findall_from (tag : string) (skip : nat) (s : string)
  : list (string * string) :=
  match s with
  | EmptyString => []
  | String _ s' =>
      match skip with
      | S k => findall_from tag k s'
      | O =>
          match match_block tag s with
          | Some (name, body, rest) =>
              (name, body)
                :: findall_from tag (String.length s' - String.length rest) s'
          | None => findall_from tag 0 s'
          end
      end
  end.

Definition findall (tag s : string) : list (string * string) :=
  findall_from tag 0 s.

(** [json.dumps(args, ensure_ascii=False)] for a dict of strings. *)
Definition hex_digit (n : nat) : ascii :=
  if (n <? 10)%nat then ascii_of_nat (48 + n) else ascii_of_nat (87 + n).

Definition quote_char : ascii := ascii_of_nat 34.
Definition backslash : ascii := ascii_of_nat 92.

(** A two-character escape: backslash and [c]. *)
Definition esc (c : ascii) : string := String backslash (String c EmptyString).

Definition json_escape_char (c : ascii) : string :=
  let n := code c in
  if (n =? 34)%nat then esc quote_char
  else if (n =? 92)%nat then esc backslash
  else if (n =? 10)%nat then esc "n"
  else if (n =? 13)%nat then esc "r"
  else if (n =? 9)%nat then esc "t"
  else if (n =? 8)%nat then esc "b"
  else if (n =? 12)%nat then esc "f"
  else if (n <? 32)%nat
       then esc "u" ++ "00"
            ++ String (hex_digit (n / 16)) (String (hex_digit (n mod 16)) EmptyString)
  else String c EmptyString.

Fixpoint json_escape (s : string) : string :=
  match s with
  | EmptyString => EmptyString
  | String c s' => json_escape_char c ++ json_escape s'
  end.

Definition json_quote (s : string) : string :=
  String quote_char (json_escape s ++ String quote_char EmptyString).

Definition json_item (kv : string * string) : string :=
  json_quote (fst kv) ++ ": " ++ json_quote (snd kv).

Definition json_dumps_args (args : list (string * string)) : string :=
  "{" ++ String.concat ", " (map json_item args) ++ "}".

Definition parse_args (body : string) : list (string * string) :=
  fold_left (fun args kv => dict_set (strip (fst kv)) (strip (snd kv)) args)
            (findall "parameter" body) [].

Definition text_call (i : nat) (name body : string) : pyval :=
  PDict [("index", PInt (Z.of_nat i));
         ("id", PStr ("call_text_" ++ str_of_nat i));
         ("type", PStr "function");
         ("function",
          PDict [("name", PStr (strip name));
                 ("arguments", PStr (json_dumps_args (parse_args body)))])].

Fixpoint text_calls_from (i : nat) (blocks : list (string * string)) : list pyval :=
  match blocks with
  | [] => []
  | (name, body) :: rest => text_call i name body :: text_calls_from (S i) rest
  end.

Definition marker : string := "<function=".

Definition _extract_text_tool_calls (content : string) : list pyval :=
  if String.eqb content EmptyString || negb (contains marker content) then []
  else text_calls_from 0 (findall "function" content).

(* ------------------------------------------------------------------ *)
(** ** Host objects and collaborators *)

(** What a tool can be handed: plain data, or an object of the host
    that the loop only passes on. *)
Inductive pyobj : Type :=
| OVal (v : pyval)
| OUser (fields : pydict)          (* the [UserModel] built from [__user__] *)
| ORequest (handle : string)       (* the FastAPI request *)
| OEmitter                         (* the progress-notification sink *)
| OMessages (msgs : list pyval).   (* the conversation list of the loop *)

Definition kwargs : Type := list (string * pyobj).

(** [inspect.Parameter.kind] and [inspect.Parameter]. *)
Inductive param_kind : Type :=
| POSITIONAL_ONLY
| POSITIONAL_OR_KEYWORD
| VAR_POSITIONAL
| KEYWORD_ONLY
| VAR_KEYWORD.

Record Param : Type := {
  name : string;
  kind : param_kind
}.

Definition is_var_keyword (p : Param) : bool :=
  match kind p with
  | VAR_KEYWORD => true
  | _ => false
  end.

(** A registry entry: the callable, run at a point of time of the host
    (the number of events so far), and its [inspect.signature].  A tool
    is handed the conversation list itself under [__messages__]; the
    callables of this embedding read what they are handed and write
    nothing of the loop's. *)
Record ToolEntry : Type := {
  callable : nat -> kwargs -> result pyval;
  signature : list Param
}.

Definition registry : Type := list (string * ToolEntry).

Definition _filter_kwargs_for_callable (func : ToolEntry) (kw : kwargs) : kwargs :=
  let params := signature func in
  if existsb is_var_keyword params then kw
  else
    let allowed := map name params in
    filter (fun kv => existsb (String.eqb (fst kv)) allowed) kw.

(** The collaborators: [UserModel], [get_tools], [chat_completion] (at
    its [n]-th call) and the [json] module of the runtime. *)
Record Host : Type := {
  user_model : pydict -> result pyobj;
  get_tools : string -> list string -> pyobj -> pydict -> result registry;
  chat_completion : nat -> pyval -> result pyval;
  json_loads : string -> result pyval;
  json_dumps : pyval -> result string
}.

Record Tools : Type := {
  max_rounds : Z
}.

(** [Tools.__init__]. *)
Definition Tools_init : Tools := {| max_rounds := 8 |}.

(** The arguments of [Tools.subquery]. *)
Record Inputs : Type := {
  prompt : string;
  include_recent_messages : Z;
  __user__ : pyval;
  __metadata__ : pyval;
  __messages__ : option (list pyval);
  __files__ : pyval;
  __model__ : pyval;
  __request__ : option string;
  __event_emitter__ : bool          (* whether a sink was injected *)
}.

(* ------------------------------------------------------------------ *)
(** ** The monad of the loop *)

(** What the loop does to its collaborators, in order. *)
Inductive event : Type :=
| EvStatus (done hidden : bool)     (* a status notification; wording left out *)
| EvErrorReport (e : exn)           (* the [chat:message:error] notification *)
| EvCompletion (form_data : pyval)  (* one [chat_completion] request *)
| EvExtract (content : pyval)       (* one call of [_extract_text_tool_calls] *)
| EvInvoke (tool : string) (kw : kwargs). (* one call of a tool *)

Record state : Type := {
  messages : list pyval;
  trace : list event
}.

Definition M (A : Type) : Type := state -> result A * state.

Definition ret {A} (a : A) : M A := fun s => (Ok a, s).

Definition raise {A} (e : exn) : M A := fun s => (Raise e, s).

Definition bind {A B} (m : M A) (f : A -> M B) : M B :=
  fun s =>
    match m s with
    | (Ok a, s') => f a s'
    | (Raise e, s') => (Raise e, s')
    end.

Definition lift {A} (r : result A) : M A := fun s => (r, s).

Declare Scope loop_scope.
Delimit Scope loop_scope with loop.
Notation "x <- m ;; k" := (bind m (fun x => k))
  (at level 61, m at next level, right associativity) : loop_scope.
Notation "m ;; k" := (bind m (fun _ => k))
  (at level 61, right associativity) : loop_scope.

Definition get_messages : M (list pyval) := fun s => (Ok (messages s), s).

(** [messages.append(m)]. *)
Definition append_message (m : pyval) : M unit :=
  fun s => (Ok tt, {| messages := messages s ++ [m]; trace := trace s |}).

Definition log (e : event) : M unit :=
  fun s => (Ok tt, {| messages := messages s; trace := trace s ++ [e] |}).

(** [messages = ...] at lines 173-178, where the list is created. *)
Definition put_messages (ms : list pyval) : M unit :=
  fun s => (Ok tt, {| messages := ms; trace := trace s |}).

Definition clock : M nat := fun s => (Ok (List.length (trace s)), s).

(** [try: body except Exception as e: handler(e); raise]. *)
Definition try_reraise {A} (body : M A) (handler : exn -> M unit) : M A :=
  fun s =>
    match body s with
    | (Ok a, s') => (Ok a, s')
    | (Raise e, s') => (Raise e, snd (handler e s'))
    end.

(* ------------------------------------------------------------------ *)
(** ** Dynamic operations on values *)

(** [v[k]] for a string key [k]. *)
Definition py_item (k : string) (v : pyval) : result pyval :=
  match v with
  | PDict d => dict_item k d
  | _ => Raise (TypeError "subscript by a string on a non-dict")
  end.

(** [v[0]]. *)
Definition py_item0 (v : pyval) : result pyval :=
  match v with
  | PList (x :: _) => Ok x
  | PList [] => Raise IndexError
  | PStr (String c _) => Ok (PStr (String c EmptyString))
  | PStr EmptyString => Raise IndexError
  | PDict _ => Raise (KeyError "0")
  | _ => Raise (TypeError "object is not subscriptable")
  end.

(** [v.get(k, default)]. *)
Definition py_get (k : string) (default : pyval) (v : pyval) : result pyval :=
  match v with
  | PDict d => Ok (dict_get_default k default d)
  | _ => Raise (AttributeError "get")
  end.

Fixpoint chars (s : string) : list pyval :=
  match s with
  | EmptyString => []
  | String c s' => PStr (String c EmptyString) :: chars s'
  end.

(** The elements a [for] loop sees. *)
Definition py_iter (v : pyval) : result (list pyval) :=
  match v with
  | PList l => Ok l
  | PStr s => Ok (chars s)
  | PDict d => Ok (map (fun kv => PStr (fst kv)) d)
  | _ => Raise (TypeError "object is not iterable")
  end.

Definition is_str (s : string) (v : pyval) : bool :=
  match v with
  | PStr s' => String.eqb s s'
  | _ => false
  end.

(** [_extract_text_tool_calls] on whatever [msg.get("content") or ""]
    is: the membership test of line 65 works on a list or a dict, and
    [re.findall] refuses anything that is not a string. *)
Definition extract_dyn (content : pyval) : result (list pyval) :=
  match content with
  | PStr s => Ok (_extract_text_tool_calls s)
  | PList l =>
      if existsb (is_str marker) l
      then Raise (TypeError "expected string or bytes-like object")
      else Ok []
  | PDict d =>
      if dict_mem marker d
      then Raise (TypeError "expected string or bytes-like object")
      else Ok []
  | _ =>
      if py_truthy content
      then Raise (TypeError "argument is not iterable")
      else Ok []
  end.

(** [v.strip()] and [v.replace(...)] exist on strings only. *)
Definition py_strip (v : pyval) : result string :=
  match v with
  | PStr s => Ok (strip s)
  | _ => Raise (AttributeError "strip")
  end.

Definition as_str (attr : string) (v : pyval) : result string :=
  match v with
  | PStr s => Ok s
  | _ => Raise (AttributeError attr)
  end.

(** [str(v)] inside an f-string, for the values that can be dict keys. *)
Definition py_str (v : pyval) : string :=
  match v with
  | PStr s => s
  | PNone => "None"
  | PBool true => "True"
  | PBool false => "False"
  | PInt z => str_of_Z z
  | PFloat r => r
  | PList _ | PDict _ => EmptyString
  end.

(** [tools_registry.get(name)]: the key is hashed first; the keys of the
    registry are strings. *)
Definition registry_get (nm : pyval) (reg : registry) : result (option ToolEntry) :=
  match nm with
  | PStr s => Ok (dict_get s reg)
  | PList _ | PDict _ => Raise (TypeError "unhashable type")
  | _ => Ok None
  end.


(** [s.lower()]. *)
Fixpoint str_lower (s : string) : string :=
  match s with
  | EmptyString => EmptyString
  | String c s' => String (lower c) (str_lower s')
  end.

Fixpoint mapM {A B} (f : A -> result B) (l : list A) : result (list B) :=
  match l with
  | [] => Ok []
  | a :: l' => b <-? f a ;; bs <-? mapM f l' ;; Ok (b :: bs)
  end.

(** One element of the sequence handed to [dict()]: it has to be a sequence
    of exactly two items (a list, a string of two characters, or a dict,
    which is read as the sequence of its keys), and the first item, the key,
    has to be hashable. *)
Definition py_pair (x : pyval) : result (pyval * pyval) :=
  kv <-? match x with
         | PList [k; v] => Ok (k, v)
         | PStr (String a (String b EmptyString)) =>
             Ok (PStr (String a EmptyString), PStr (String b EmptyString))
         | PDict [(k1, _); (k2, _)] => Ok (PStr k1, PStr k2)
         | PList _ | PStr _ | PDict _ =>
             Raise (ValueError "dictionary update sequence element: 2 is required")
         | _ =>
             Raise (TypeError "cannot convert dictionary update sequence element to a sequence")
         end ;;
  match fst kv with
  | PList _ | PDict _ => Raise (TypeError "unhashable type")
  | _ => Ok kv
  end.

(** The dict that [dict(args)] builds: its entries under a string key, in
    insertion order, and whether it has an entry under another key (a
    number, a boolean or None).  Such an entry can be no keyword argument:
    it passes no filter by parameter name, and a call with [**kw] refuses
    it. *)
Record ArgDict : Type := {
  str_items : pydict;
  other_keys : bool
}.

Definition add_pair (d : ArgDict) (kv : pyval * pyval) : ArgDict :=
  match fst kv with
  | PStr k => {| str_items := dict_set k (snd kv) (str_items d);
                 other_keys := other_keys d |}
  | _ => {| str_items := str_items d; other_keys := true |}
  end.

(** [dict(args)] for the value [json.loads] returned: a copy of a JSON
    object; for a JSON array or string, the dict of its pairs; nothing else
    can be iterated. *)
Definition py_dict (v : pyval) : result ArgDict :=
  match v with
  | PDict d => Ok {| str_items := d; other_keys := false |}
  | _ =>
      items <-? py_iter v ;;
      pairs <-? mapM py_pair items ;;
      Ok (fold_left add_pair pairs {| str_items := []; other_keys := false |})
  end.

(* ------------------------------------------------------------------ *)
(** ** The orchestration loop *)

Local Open Scope loop_scope.

Definition as_dict (v : pyval) : result pydict :=
  match v with
  | PDict d => Ok d
  | _ => Raise (AttributeError "get")
  end.

Definition tool_message (tc_id nm : pyval) (content : string) : pyval :=
  PDict [("role", PStr "tool"); ("tool_call_id", tc_id); ("name", nm);
         ("content", PStr content)].

Definition not_found_notice (nm : pyval) : string :=
  "Tool '" ++ py_str nm ++ "' not found".

Definition assistant_message (content : pyval) (tool_calls : list pyval) : pyval :=
  PDict [("role", PStr "assistant"); ("content", content);
         ("tool_calls", PList tool_calls)].

(** [tc["function"]["name"]]. *)
Definition call_name (tc : pyval) : result pyval :=
  f <-? py_item "function" tc ;; py_item "name" f.

(** [data["choices"][0]["message"]], on which [msg.get] is then called. *)
Definition message_of (data : pyval) : result pydict :=
  choices <-? py_item "choices" data ;;
  first <-? py_item0 choices ;;
  m <-? py_item "message" first ;;
  as_dict m.

(** The locals of [subquery] that are fixed before the first round. *)
Record Session : Type := {
  user : pyobj;
  request : string;
  model_id : pyval;
  params : pydict;
  tool_ids : option (list string);
  tools_registry : registry
}.

Section Subquery.
Variable self : Tools.
Variable host : Host.
Variable args : Inputs.

Definition emit (e : event) : M unit :=
  if __event_emitter__ args then log e else ret tt.

Section Rounds.
Variable ses : Session.

(** The dict of lines 335-344. *)
Definition context (msgs : list pyval) : kwargs :=
  [("__user__", OVal (__user__ args));
   ("user", user ses);
   ("__metadata__", OVal (__metadata__ args));
   ("__messages__", OMessages msgs);
   ("__files__", OVal (__files__ args));
   ("__model__", OVal (__model__ args));
   ("__request__", ORequest (request ses));
   ("__event_emitter__", if __event_emitter__ args then OEmitter else OVal PNone)].

(** Lines 333-345: [dict(args)] and [update]. *)
Definition call_kwargs (parsed : pydict) (msgs : list pyval) : kwargs :=
  dict_update (context msgs) (map (fun kv => (fst kv, OVal (snd kv))) parsed).

(** Lines 314-366: one turn of [for tc in tool_calls]. *)
Definition dispatch (tc : pyval) : M unit :=
  f <- lift (py_item "function" tc) ;;
  nm <- lift (py_item "name" f) ;;
  a <- lift (py_get "arguments" (PStr EmptyString) f) ;;
  let args_raw := py_or a (PStr EmptyString) in
  tc_id <- lift (py_get "id" (PStr EmptyString) tc) ;;
  entry <- lift (registry_get nm (tools_registry ses)) ;;
  match entry with
  | None => append_message (tool_message tc_id nm (not_found_notice nm))
  | Some func =>
      parsed <- lift (s <-? as_str "strip" args_raw ;;
                      v <-? (if String.eqb (strip s) EmptyString
                             then Ok (PDict [])
                             else json_loads host s) ;;
                      py_dict v) ;;
      msgs <- get_messages ;;
      let filtered_kwargs :=
        _filter_kwargs_for_callable func (call_kwargs (str_items parsed) msgs) in
      (if other_keys parsed && existsb is_var_keyword (signature func)
       then raise (TypeError "keywords must be strings")
       else ret tt) ;;
      log (EvInvoke (py_str nm) filtered_kwargs) ;;
      now <- clock ;;
      res <- lift (callable func now filtered_kwargs) ;;
      content <- lift (match res with
                       | PStr s => Ok s
                       | _ => json_dumps host res
                       end) ;;
      append_message (tool_message tc_id nm content)
  end.

Fixpoint dispatch_all (tool_calls : list pyval) : M unit :=
  match tool_calls with
  | [] => ret tt
  | tc :: rest => dispatch tc ;; dispatch_all rest
  end.

(** Lines 266-301: the status line for two or more calls. *)
Definition announce (tool_calls : list pyval) : M unit :=
  if __event_emitter__ args && (2 <=? List.length tool_calls)%nat
  then
    tool_names <- lift (mapM call_name tool_calls) ;;
    _ <- lift (mapM (as_str "replace") tool_names) ;;
    log (EvStatus false false)
  else ret tt.

Definition form_data (msgs : list pyval) : pyval :=
  PDict ([("model", model_id ses);
          ("messages", PList msgs);
          ("stream", PBool false);
          ("params", PDict (params ses))]
         ++ (if py_truthy (__files__ args) then [("files", __files__ args)] else [])
         ++ (match tool_ids ses with
             | Some (t :: ts) => [("tool_ids", PList (map PStr (t :: ts)))]
             | _ => []
             end)).

(** Line 227: the structured calls of the response. *)
Definition structured_calls (msg : pydict) : result (list pyval) :=
  let raw := py_or (dict_get_default "tool_calls" PNone msg) (PList []) in
  items <-? py_iter raw ;;
  _normalize_tool_calls items.

(** [msg.get("content") or ""]. *)
Definition content_of (msg : pydict) : pyval :=
  py_or (dict_get_default "content" PNone msg) (PStr EmptyString).

(** Lines 226-238: the calls of the round and [msg] as the rest of
    the round sees it. *)
Definition decide_calls (msg : pydict) : M (list pyval * pydict) :=
  tool_calls <- lift (structured_calls msg) ;;
  match tool_calls with
  | _ :: _ => ret (tool_calls, msg)
  | [] =>
      let content := content_of msg in
      log (EvExtract content) ;;
      parsed <- lift (found <-? extract_dyn content ;; _normalize_tool_calls found) ;;
      match parsed with
      | [] => ret ([], msg)
      | _ :: _ =>
          s <- lift (as_str "split" content) ;;
          ret (parsed, dict_set "content" (PStr (rstrip (split_head marker s))) msg)
      end
  end.

(** Lines 240-366: the round once its calls are known. *)
Definition conclude (tool_calls : list pyval) (msg : pydict) : M (option string) :=
  match tool_calls with
  | [] =>
      emit (EvStatus true true) ;;
      text <- lift (py_strip (content_of msg)) ;;
      ret (Some text)
  | _ :: _ =>
      announce tool_calls ;;
      append_message (assistant_message (content_of msg) tool_calls) ;;
      dispatch_all tool_calls ;;
      ret None
  end.

(** One turn of [for round_num in range(self.max_rounds)]:
    [Some text] when the round returns, [None] when it falls through
    to the next one. *)
Definition round (round_num : nat) : M (option string) :=
  msgs <- get_messages ;;
  log (EvCompletion (form_data msgs)) ;;
  data <- lift (chat_completion host round_num (form_data msgs)) ;;
  msg <- lift (message_of data) ;;
  decided <- decide_calls msg ;;
  conclude (fst decided) (snd decided).

Definition round_limit_error : exn :=
  RuntimeError ("[Subquery] exceeded max_rounds=" ++ str_of_Z (max_rounds self)).

(** The [for] loop with [todo] rounds left, and line 368 after it. *)
Fixpoint rounds (todo round_num : nat) : M string :=
  match todo with
  | O => raise round_limit_error
  | S todo' =>
      r <- round round_num ;;
      match r with
      | Some text => ret text
      | None => rounds todo' (S round_num)
      end
  end.
End Rounds.

(** Lines 181-188. *)
Definition inherited_params : pydict :=
  let params :=
    match __metadata__ args with
    | PDict md =>
        match py_or (dict_get_default "params" PNone md) (PDict []) with
        | PDict meta_params => dict_update meta_params []
        | _ => []
        end
    | _ => []
    end in
  dict_set "function_calling" (PStr "native") params.

Definition keep_tool_id (t : pyval) : list string :=
  match t with
  | PStr s => if String.eqb (str_lower s) "subquery" then [] else [s]
  | _ => []
  end.

(** Lines 191-197. *)
Definition inherited_tool_ids : option (list string) :=
  match __metadata__ args with
  | PDict md =>
      match dict_get_default "tool_ids" PNone md with
      | PList l => Some (flat_map keep_tool_id l)
      | _ => None
      end
  | _ => None
  end.

Definition model_id_present : bool :=
  match __model__ args with
  | PDict d => py_truthy (dict_get_default "id" PNone d)
  | _ => false
  end.

(** Lines 138-207: everything before the first round. *)
Definition prepare : M Session :=
  emit (EvStatus false false) ;;
  request <- match __request__ args with
             | None => raise (RuntimeError "[Subquery] __request__ was not injected")
             | Some r => ret r
             end ;;
  user_fields <- match __user__ args with
                 | PNone => raise (RuntimeError "[Subquery] __user__ was not injected")
                 | PDict d => ret (Ok d)
                 | _ => ret (Raise (TypeError "argument after ** must be a mapping"))
                 end ;;
  (if model_id_present then ret tt
   else raise (RuntimeError
                 "[Subquery] could not determine current model id from __model__")) ;;
  user <- lift (d <-? user_fields ;; user_model host d) ;;
  model_id <- lift (py_item "id" (__model__ args)) ;;
  put_messages (initial_messages (prompt args) (include_recent_messages args)
                                 (__messages__ args)) ;;
  let params := inherited_params in
  let tool_ids := inherited_tool_ids in
  tools_registry <- match tool_ids with
                    | Some (t :: ts) =>
                        lift (get_tools host request (t :: ts) user
                                        [("__model__", __model__ args);
                                         ("__user__", __user__ args)])
                    | _ => ret []
                    end ;;
  ret {| user := user; request := request; model_id := model_id;
         params := params; tool_ids := tool_ids;
         tools_registry := tools_registry |}.

(** The body of the [try]. *)
Definition subquery_body : M string :=
  ses <- prepare ;;
  rounds ses (Z.to_nat (max_rounds self)) 0.

Definition report (e : exn) : M unit :=
  if __event_emitter__ args then log (EvErrorReport e) else ret tt.

Definition initial_state : state := {| messages := []; trace := [] |}.

(** [Tools.subquery]: the outcome, the final conversation and the
    trace. *)
Definition subquery : result string * state :=
  try_reraise subquery_body report initial_state.
End Subquery.

(** The rounds of a run: its completion requests. *)
Definition is_completion (e : event) : bool :=
  match e with
  | EvCompletion _ => true
  | _ => false
  end.

Definition rounds_executed (tr : list event) : nat :=
  List.length (filter is_completion tr).

Definition is_extract (e : event) : bool :=
  match e with
  | EvExtract _ => true
  | _ => false
  end.

(* ------------------------------------------------------------------ *)
(** ** Sample sessions

    Concrete collaborators on which the loop can be run.  The [json]
    module of these hosts covers the empty object only. *)

Definition sample_args : Inputs :=
  {| prompt := "Which tickets are open?";
     include_recent_messages := 0;
     __user__ := PDict [("id", PStr "u1"); ("role", PStr "user")];
     __metadata__ := PDict [("tool_ids", PList [PStr "tracker"; PStr "SubQuery"])];
     __messages__ := Some [PDict [("role", PStr "user"); ("content", PStr "hello")]];
     __files__ := PNone;
     __model__ := PDict [("id", PStr "m1")];
     __request__ := Some "req";
     __event_emitter__ := true |}.

Definition sample_host (answer : nat -> pyval) (reg : registry) : Host :=
  {| user_model := fun d => Ok (OUser d);
     get_tools := fun _ _ _ _ => Ok reg;
     chat_completion := fun n _ => Ok (answer n);
     json_loads := fun s => if String.eqb (strip s) "{}"
                            then Ok (PDict [])
                            else Raise (NotModelled "json.loads");
     json_dumps := fun _ => Raise (NotModelled "json.dumps") |}.

Definition structured_call (nm arguments : string) : pyval :=
  PDict [("id", PStr "call_0"); ("type", PStr "function");
         ("function", PDict [("name", PStr nm); ("arguments", PStr arguments)])].

(** A completion response with one choice. *)
Definition reply (content : pyval) (tool_calls : list pyval) : pyval :=
  PDict [("choices",
          PList [PDict [("message",
                         PDict [("role", PStr "assistant");
                                ("content", content);
                                ("tool_calls", PList tool_calls)])]])].

(** A model that asks for a tool nobody registered, round after round. *)
Definition ghost_host : Host :=
  sample_host (fun _ => reply PNone [structured_call "ghost" "{}"]) [].

(** What [prepare] leaves for that host and [sample_args]. *)
Definition ghost_session : Session :=
  {| user := OUser [("id", PStr "u1"); ("role", PStr "user")];
     request := "req";
     model_id := PStr "m1";
     params := [("function_calling", PStr "native")];
     tool_ids := Some ["tracker"];
     tools_registry := [] |}.

Definition ghost_start : state :=
  {| messages := [user_message "Which tickets are open?"];
     trace := [EvStatus false false] |}.

(** A registered tool that raises. *)
Definition failing_tool : ToolEntry :=
  {| callable := fun _ _ => Raise (HostError "tracker is down");
     signature := [{| name := "query"; kind := POSITIONAL_OR_KEYWORD |}] |}.

Definition failing_host : Host :=
  sample_host (fun _ => reply PNone [structured_call "tracker" EmptyString])
              [("tracker", failing_tool)].

(** A model that writes its first call in capitals. *)
Definition capitals : string :=
  "<FUNCTION=a></FUNCTION> <function=b></function>".

Definition capitals_host : Host :=
  sample_host (fun n => match n with
                        | O => reply (PStr capitals) []
                        | _ => reply (PStr "done") []
                        end) [].

Definition superscript_two : string := String (ascii_of_nat 178) EmptyString.

(** The call of the specification's example, as written and in capitals. *)
Definition foo_call : string :=
  "<function=foo><parameter=x>1</parameter></function>".

Definition foo_call_capitals : string :=
  "<FUNCTION=foo><parameter=x>1</parameter></FUNCTION>".

(** A response with a structured call whose content also shows a call
    marker. *)
Definition both_reply : pyval :=
  reply (PStr foo_call) [structured_call "ghost" "{}"].

Definition both_host : Host := sample_host (fun _ => both_reply) [].

Definition sample_session : Session :=
  {| user := OUser [("id", PStr "u1")];
     request := "req";
     model_id := PStr "m1";
     params := [("function_calling", PStr "native")];
     tool_ids := None;
     tools_registry := [] |}.

(** A tool with a fixed signature and one that takes [**kwargs]. *)
Definition echo_tool : ToolEntry :=
  {| callable := fun _ kw => Ok (PStr "pong");
     signature := [{| name := "text"; kind := POSITIONAL_OR_KEYWORD |};
                   {| name := "__user__"; kind := KEYWORD_ONLY |}] |}.

Definition open_tool : ToolEntry :=
  {| callable := fun _ kw => Ok (PStr "pong");
     signature := [{| name := "kwargs"; kind := VAR_KEYWORD |}] |}.

(** The three end-to-end scenarios of the specification: a plain answer;
    one structured call to a registered tool, then the answer; two calls
    written as text, then the answer. *)
Definition plain_host : Host :=
  sample_host (fun _ => reply (PStr "  Two tickets are open. ") []) [].

Definition echo_host : Host :=
  sample_host (fun n => match n with
                        | O => reply PNone [structured_call "tracker" "{}"]
                        | _ => reply (PStr "pong it is") []
                        end)
              [("tracker", echo_tool)].

Definition two_calls : string :=
  "Let me look. <function=first></function><function=second></function>".

Definition two_calls_host : Host :=
  sample_host (fun n => match n with
                        | O => reply (PStr two_calls) []
                        | _ => reply (PStr "done") []
                        end) [].

Definition roles (msgs : list pyval) : list pyval :=
  map (fun m => match m with
                | PDict d => dict_get_default "role" PNone d
                | _ => PNone
                end) msgs.

(* ------------------------------------------------------------------ *)
(** ** Predicates used in the statements *)

(** An entry as the normaliser leaves it: a dict whose ["index"] is an
    [int]. *)
Definition normalized (tc : pyval) : Prop :=
  exists d idx,
    tc = PDict d /\ dict_get "index" d = Some idx /\ isinstance_int idx = true.

(** A history entry as [_tail_messages] leaves it. *)
Definition history_entry (m : pyval) : Prop :=
  exists r c,
    m = PDict [("role", PStr r); ("content", c)]
    /\ (r = "system" \/ r = "user" \/ r = "assistant").

(** The rounds [k], [k+1], ..., [k+n-1], run from state [s], all fall
    through to the next round: each completion request is answered, the
    answer holds at least one call, and nothing raises. *)
Inductive keeps_calling (host : Host) (args : Inputs) (ses : Session)
  : nat -> nat -> state -> Prop :=
| kc_done : forall k s, keeps_calling host args ses 0 k s
| kc_round : forall n k s s',
    round host args ses k s = (Ok None, s') ->
    keeps_calling host args ses n (S k) s' ->
    keeps_calling host args ses (S n) k s.

(** The same, as a test that can be run. *)
Fixpoint keeps_callingb (host : Host) (args : Inputs) (ses : Session)
    (n k : nat) (s : state) : bool :=
  match n with
  | O => true
  | S n' =>
      match round host args ses k s with
      | (Ok None, s') => keeps_callingb host args ses n' (S k) s'
      | _ => false
      end
  end.

(** The answer [data] of the completion service holds at least one tool
    call, structured or written as text. *)
Definition yields_call (data : pyval) : Prop :=
  exists msg tc calls msg' s',
    message_of data = Ok msg
    /\ decide_calls msg initial_state = (Ok (tc :: calls, msg'), s').

Definition extracts (tr : list event) : list event := filter is_extract tr.

(** Whether a keyword [k] reaches the callable: it takes [**kwargs] or
    declares a parameter [k]. *)
Definition accepts (func : ToolEntry) (k : string) : bool :=
  existsb is_var_keyword (signature func)
  || existsb (String.eqb k) (map name (signature func)).

(** The keyword arguments of a tool call are those the dispatcher builds
    from some parsed arguments and the conversation of the moment. *)
Definition guarded (args : Inputs) (e : event) : Prop :=
  match e with
  | EvInvoke _ kw =>
      exists ses func parsed msgs,
        kw = _filter_kwargs_for_callable func (call_kwargs args ses parsed msgs)
  | _ => True
  end.

(** [adds Q m]: running [m] only appends events to the trace, and every
    event it appends satisfies [Q]; the conversation is of no concern. *)
Definition adds {A} (Q : event -> Prop) (m : M A) : Prop :=
  forall s, exists new, trace (snd (m s)) = trace s ++ new /\ Forall Q new.

Definition no_extract (e : event) : Prop := is_extract e = false.
Definition no_completion (e : event) : Prop := is_completion e = false.
Definition neither (e : event) : Prop := no_extract e /\ no_completion e.

(** The state once the completion request [fd] is on the trace. *)
Definition requested (fd : pyval) (s : state) : state :=
  {| messages := messages s; trace := trace s ++ [EvCompletion fd] |}.

(* ------------------------------------------------------------------ *)
(** ** Status wording *)

Definition is_ascii (c : ascii) : bool := (code c <? 128)%nat.

(** ASCII letters: the cased characters below 128. *)
Definition is_letter (c : ascii) : bool :=
  let n := code c in
  ((65 <=? n) && (n <=? 90) || (97 <=? n) && (n <=? 122))%nat.

Definition upper (c : ascii) : ascii :=
  let n := code c in
  if ((97 <=? n) && (n <=? 122))%nat then ascii_of_nat (n - 32) else c.

Definition no_underscore (c : ascii) : bool := negb (Ascii.eqb c "_").

(** [s.replace(old, new)] for one-character [old] and [new]. *)
Fixpoint replace_char (old new : ascii) (s : string) : string :=
  match s with
  | EmptyString => EmptyString
  | String c s' =>
      String (if Ascii.eqb c old then new else c) (replace_char old new s')
  end.

(** The loop of [str.title]: a character after a cased one is lowered,
    any other is title-cased. *)
Fixpoint title_from (previous_is_cased : bool) (s : string) : string :=
  match s with
  | EmptyString => EmptyString
  | String c s' =>
      String (if previous_is_cased then lower c else upper c)
             (title_from (is_letter c) s')
  end.

(** [s.title()]; the title case of letters beyond ASCII is outside this
    embedding. *)
Definition title (s : string) : result string :=
  if str_forallb is_ascii s then Ok (title_from false s)
  else Raise (NotModelled "title() beyond ASCII").

Definition _make_function_name_readable (func_name : string) : result string :=
  title (replace_char "_" " " func_name).

(* ------------------------------------------------------------------ *)
(** ** Further predicates *)

(** What [_tail_messages] makes of a history entry [d] with role [r]. *)
Definition projection (d : pydict) (r : string) : pyval :=
  PDict [("role", PStr r);
         ("content", dict_get_default "content" (PStr EmptyString) d)].

(** An entry whose index the normaliser can read: a string index that
    passes [isdigit] is made of decimal digits, and of no more of them
    than [int] converts. *)
Definition index_readable (tc : pyval) : Prop :=
  match tc with
  | PDict d =>
      match dict_get "index" d with
      | Some (PStr s) =>
          isdigit s = true ->
          str_forallb is_decimal s = true
          /\ (Z.of_nat (String.length s) <= int_max_str_digits)%Z
      | _ => True
      end
  | _ => True
  end.

(** The survivor [tc'] is the dict [tc] with an [int] stored under
    ["index"], every other key as it was. *)
Definition reindexed (tc tc' : pyval) : Prop :=
  exists d idx,
    tc = PDict d /\ tc' = PDict (dict_set "index" idx d)
    /\ isinstance_int idx = true.

(** The index the normaliser stores for the dict [d] found at position
    [i] of the batch, when it returns. *)
Definition stored_index (i : nat) (d : pydict) : pyval :=
  match dict_get "index" d with
  | None => PInt (Z.of_nat i)
  | Some (PStr s) =>
      if isdigit s then PInt (digits_value 0 s) else PInt (Z.of_nat i)
  | Some v => if isinstance_int v then v else PInt (Z.of_nat i)
  end.

(** [pat], written in lower case, occurs in [s] in some letter casing. *)
Fixpoint icontains (pat s : string) : bool :=
  match imatch pat s with
  | Some _ => true
  | None =>
      match s with
      | EmptyString => false
      | String _ s' => icontains pat s'
      end
  end.

(** A call as the text extractor builds it at position [k]. *)
Definition text_call_shape (k : nat) (tc : pyval) : Prop :=
  exists nm arguments,
    tc = PDict [("index", PInt (Z.of_nat k));
                ("id", PStr ("call_text_" ++ str_of_nat k));
                ("type", PStr "function");
                ("function", PDict [("name", PStr nm);
                                    ("arguments", PStr arguments)])]
    /\ nm <> EmptyString
    /\ str_forallb name_char nm = true.

(** The tool message that answers a call to an unknown tool. *)
Definition not_found_reply (tc : pyval) : pyval :=
  match call_name tc, py_get "id" (PStr EmptyString) tc with
  | Ok nm, Ok tc_id => tool_message tc_id nm (not_found_notice nm)
  | _, _ => PNone
  end.

(** The conversation of [s'] is that of [s] with messages appended. *)
Definition grows (s s' : state) : Prop :=
  exists more, messages s' = messages s ++ more.

(** Running [m] only appends to the conversation. *)
Definition appends {A} (m : M A) : Prop := forall s, grows s (snd (m s)).

(** A notification to the sink. *)
Definition is_notification (e : event) : bool :=
  match e with
  | EvStatus _ _ | EvErrorReport _ => true
  | _ => false
  end.

(** A completion request of the session [ses]. *)
Definition request_of (args : Inputs) (ses : Session) (e : event) : Prop :=
  match e with
  | EvCompletion fd => exists msgs, fd = form_data args ses msgs
  | _ => True
  end.

(** [reply] is a tool message tagged with the identifier and the name of
    the call [tc]. *)
Definition answers (tc reply : pyval) : Prop :=
  exists tc_id nm content,
    py_get "id" (PStr EmptyString) tc = Ok tc_id
    /\ call_name tc = Ok nm
    /\ reply = tool_message tc_id nm content.

(** [args_raw] of line 315. *)
Definition arguments_of (tc : pyval) : result pyval :=
  f <-? py_item "function" tc ;;
  a <-? py_get "arguments" (PStr EmptyString) f ;;
  Ok (py_or a (PStr EmptyString)).

(** A host whose [json.loads] is also known on the text of one opening
    brace, which is not JSON, and a session with the tool that raises. *)
Definition brace_host : Host :=
  {| user_model := fun d => Ok (OUser d);
     get_tools := fun _ _ _ _ => Ok [("tracker", failing_tool)];
     chat_completion := fun _ _ => Ok (reply PNone [structured_call "tracker" "{"]);
     json_loads := fun s => if String.eqb (strip s) "{}" then Ok (PDict [])
                            else if String.eqb s "{" then Raise JSONDecodeError
                            else Raise (NotModelled "json.loads");
     json_dumps := fun _ => Raise (NotModelled "json.dumps") |}.

Definition tracker_session (tool : ToolEntry) : Session :=
  {| user := OUser []; request := "req"; model_id := PStr "m1"; params := [];
     tool_ids := None; tools_registry := [("tracker", tool)] |}.

(** Arguments of a call without a sink. *)
Definition silent_args : Inputs :=
  {| prompt := "Which tickets are open?";
     include_recent_messages := 0;
     __user__ := PDict [("id", PStr "u1")];
     __metadata__ := PNone;
     __messages__ := None;
     __files__ := PNone;
     __model__ := PDict [("id", PStr "m1")];
     __request__ := Some "req";
     __event_emitter__ := false |}.

(** A model that asks for two calls whose function names are numbers. *)
Definition numbered_call (n : Z) : pyval :=
  PDict [("id", PStr "call_0"); ("type", PStr "function");
         ("function", PDict [("name", PInt n); ("arguments", PStr "{}")])].

Definition numbered_host : Host :=
  sample_host (fun _ => reply PNone [numbered_call 5; numbered_call 6]) [].

(** A model whose arguments are a JSON array: a pair, a string of two
    characters and a pair with a number as its key. *)
Definition pairs_json : pyval :=
  PList [PList [PStr "text"; PStr "hi"]; PStr "ab"; PList [PInt 1; PInt 2]].

Definition pairs_host : Host :=
  {| user_model := fun d => Ok (OUser d);
     get_tools := fun _ _ _ _ => Ok [("tracker", echo_tool)];
     chat_completion := fun _ _ => Ok (reply PNone [structured_call "tracker" "[]"]);
     json_loads := fun _ => Ok pairs_json;
     json_dumps := fun _ => Raise (NotModelled "json.dumps") |}.

(* ------------------------------------------------------------------ *)
(** * Properties *)

Unset Implicit Arguments.

(** ** Dictionaries *)

Section DictFacts.
Variable V : Type.
Implicit Types (d : list (string * V)) (k : string) (v : V).

Lemma dict_get_set_eq k v d : dict_get k (dict_set k v d) = Some v.
Proof.
  induction d as [|[k' v'] d IH]; simpl.
  - now rewrite String.eqb_refl.
  - destruct (String.eqb k k') eqn:E; simpl; rewrite E; auto.
Qed.

Lemma dict_get_set_neq k k' v d :
  String.eqb k k' = false -> dict_get k (dict_set k' v d) = dict_get k d.
Proof.
  intros N. induction d as [|[k2 v2] d IH]; simpl.
  - now rewrite N.
  - destruct (String.eqb k' k2) eqn:E; simpl.
    + apply String.eqb_eq in E. subst k2. now rewrite N.
    + destruct (String.eqb k k2); auto.
Qed.

Lemma dict_set_same k v d : dict_get k d = Some v -> dict_set k v d = d.
Proof.
  induction d as [|[k' v'] d IH]; simpl; [discriminate|].
  destruct (String.eqb k k'); intros H.
  - now inversion H.
  - now rewrite IH.
Qed.

Lemma dict_get_filter (p : string -> bool) k d :
  dict_get k (filter (fun kv => p (fst kv)) d)
  = if p k then dict_get k d else None.
Proof.
  induction d as [|[k' v'] d IH]; simpl.
  - now destruct (p k).
  - destruct (p k') eqn:P; simpl.
    + destruct (String.eqb k k') eqn:E; auto.
      apply String.eqb_eq in E. subst. now rewrite P.
    + rewrite IH. destruct (String.eqb k k') eqn:E; auto.
      apply String.eqb_eq in E. subst. now rewrite P.
Qed.
End DictFacts.

(** ** Conversation state builder *)

Lemma tail_entry_length m : (List.length (tail_entry m) <= 1)%nat.
Proof.
  destruct m; simpl; auto.
  destruct (dict_get "role" d); simpl; auto.
  destruct (role_kept p); simpl; auto.
Qed.

Lemma flat_map_tail_length l :
  (List.length (flat_map tail_entry l) <= List.length l)%nat.
Proof.
  induction l as [|m l IH]; simpl; auto.
  rewrite length_app. pose proof (tail_entry_length m). lia.
Qed.

Lemma role_kept_inv r :
  role_kept r = true ->
  exists s, r = PStr s /\ (s = "system" \/ s = "user" \/ s = "assistant").
Proof.
  destruct r; simpl; try discriminate.
  intros H. exists s. split; auto.
  apply orb_true_iff in H. destruct H as [H|H].
  - apply orb_true_iff in H. destruct H as [H|H]; apply String.eqb_eq in H; auto.
  - apply String.eqb_eq in H; auto.
Qed.

Lemma tail_entry_shape m : Forall history_entry (tail_entry m).
Proof.
  destruct m; simpl; auto.
  destruct (dict_get "role" d) as [r|] eqn:R; auto.
  destruct (role_kept r) eqn:K; auto.
  destruct (role_kept_inv r K) as (s & -> & Hs).
  constructor; auto. now exists s, (dict_get_default "content" (PStr EmptyString) d).
Qed.

Lemma tail_messages_shape msgs n : Forall history_entry (_tail_messages msgs n).
Proof.
  unfold _tail_messages. induction (slice_from (- n) msgs) as [|m l IH]; simpl; auto.
  apply Forall_app. split; auto using tail_entry_shape.
Qed.

Lemma slice_last_length {A} (l : list A) n :
  0 < n -> (List.length (slice_from (- n) l) <= Z.to_nat n)%nat.
Proof.
  intros Hn. unfold slice_from.
  destruct (Z.ltb_spec (- n) 0); [|lia].
  rewrite length_skipn. lia.
Qed.

Lemma tail_messages_length msgs n :
  0 < n -> (List.length (_tail_messages msgs n) <= Z.to_nat n)%nat.
Proof.
  intros Hn. unfold _tail_messages.
  pose proof (flat_map_tail_length (slice_from (- n) msgs)).
  pose proof (slice_last_length msgs n Hn). lia.
Qed.

(** Called with [n = 0], [_tail_messages] slices [msgs[-0:]], the whole
    list; [subquery] never makes that call. *)
Lemma tail_messages_zero msgs : _tail_messages msgs 0 = flat_map tail_entry msgs.
Proof.
  unfold _tail_messages, slice_from. simpl.
  now rewrite Z.min_l by lia.
Qed.

(** C5: for every prior-message list and every count [n >= 0], the
    history tail the conversation builder produces has at most [n]
    entries, and every entry is a dict of exactly [role] and [content]
    whose role is system, user or assistant. *)
Theorem history_tail_bounded (msgs : option (list pyval)) (n : Z) :
  0 <= n ->
  (List.length (history_tail n msgs) <= Z.to_nat n)%nat
  /\ Forall history_entry (history_tail n msgs).
Proof.
  intros Hn. unfold history_tail.
  destruct msgs as [[|m ms]|]; simpl; auto with arith.
  destruct (Z.eqb_spec n 0) as [->|Hz]; simpl; auto.
  split.
  - apply tail_messages_length. lia.
  - apply tail_messages_shape.
Qed.

Lemma history_tail_bounded_witness :
  0 <= 1
  /\ history_tail 1 (Some [PDict [("role", PStr "user"); ("content", PStr "a")];
                           PDict [("role", PStr "assistant"); ("content", PStr "b");
                                  ("tool_calls", PList [])]])
     = [PDict [("role", PStr "assistant"); ("content", PStr "b")]]
  /\ (List.length
        (history_tail 1 (Some [PDict [("role", PStr "user"); ("content", PStr "a")];
                               PDict [("role", PStr "assistant"); ("content", PStr "b");
                                      ("tool_calls", PList [])]]))
      <= Z.to_nat 1)%nat.
Proof.
  split; [lia|]. split; [reflexivity|].
  apply (history_tail_bounded
           (Some [PDict [("role", PStr "user"); ("content", PStr "a")];
                  PDict [("role", PStr "assistant"); ("content", PStr "b");
                         ("tool_calls", PList [])]]) 1).
  lia.
Defined.

(** C10: with [include_recent_messages = 0] the initial conversation is
    one message, whatever the supplied history is: the dict with the role
    ["user"] and the prompt, as given, as its content, and no other key. *)
Theorem initial_conversation_default (prompt : string) (msgs : option (list pyval)) :
  initial_messages prompt 0 msgs
  = [PDict [("role", PStr "user"); ("content", PStr prompt)]].
Proof.
  unfold initial_messages, history_tail.
  destruct msgs as [[|m ms]|]; reflexivity.
Qed.

(** ** Call normaliser *)

Lemma resolve_index_int i d idx :
  resolve_index i d = Ok idx -> isinstance_int idx = true.
Proof.
  unfold resolve_index.
  destruct (dict_get_default "index" (PInt (Z.of_nat i)) d) eqn:E; simpl;
    try (intros H; inversion H; subst; reflexivity).
  destruct (isdigit s).
  - destruct (py_int s); simpl; intros H; inversion H; reflexivity.
  - intros H; inversion H; reflexivity.
Qed.

(** An index that already is an [int] is kept, wherever the entry
    stands. *)
Lemma resolve_index_kept i d idx :
  dict_get "index" d = Some idx -> isinstance_int idx = true ->
  resolve_index i d = Ok idx.
Proof.
  intros G I. unfold resolve_index, dict_get_default. rewrite G.
  destruct idx; simpl in I; try discriminate; reflexivity.
Qed.

Lemma decimal_is_digit t :
  str_forallb is_decimal t = true -> str_forallb is_digit t = true.
Proof.
  induction t as [|a t IH]; cbn [str_forallb]; auto.
  intros H. apply andb_true_iff in H. destruct H as [Ha Ht].
  apply andb_true_iff. split; auto.
  unfold is_digit. now rewrite Ha.
Qed.

(** A string of decimal digits, no more of them than the interpreter
    converts, is read as a number. *)
Lemma resolve_index_decimal i d s :
  dict_get "index" d = Some (PStr s) -> s <> EmptyString ->
  str_forallb is_decimal s = true ->
  (Z.of_nat (String.length s) <=? int_max_str_digits) = true ->
  resolve_index i d = Ok (PInt (digits_value 0 s)).
Proof.
  intros G N D L. unfold resolve_index, dict_get_default. rewrite G.
  assert (Hd : isdigit s = true).
  { unfold isdigit. destruct s as [|c s]; [congruence|].
    now apply decimal_is_digit. }
  rewrite Hd. unfold py_int. destruct s; [congruence|]. now rewrite D, L.
Qed.

(** An absent index, a string that is not all digits and a value that is
    neither a string nor an [int] give way to the position. *)
Lemma resolve_index_position i d :
  match dict_get "index" d with
  | None => True
  | Some (PStr s) => isdigit s = false
  | Some v => isinstance_int v = false
  end ->
  resolve_index i d = Ok (PInt (Z.of_nat i)).
Proof.
  unfold resolve_index, dict_get_default.
  destruct (dict_get "index" d) as [v|]; [|reflexivity].
  destruct v; simpl; intros H; try discriminate; try reflexivity.
  now rewrite H.
Qed.

Lemma normalize_from_normalized l : forall i out,
  normalize_from i l = Ok out -> Forall normalized out.
Proof.
  induction l as [|tc l IH]; simpl; intros i out H.
  - inversion H. constructor.
  - destruct tc; eauto.
    destruct (resolve_index i d) as [idx|e] eqn:R; simpl in H; [|discriminate].
    destruct (normalize_from (S i) l) as [out'|e] eqn:N; simpl in H; [|discriminate].
    inversion H; subst. constructor; eauto.
    exists (dict_set "index" idx d), idx. repeat split.
    + apply dict_get_set_eq.
    + eapply resolve_index_int; eauto.
Qed.

Lemma normalize_from_fixed l :
  Forall normalized l -> forall i, normalize_from i l = Ok l.
Proof.
  induction 1 as [|tc l (d & idx & -> & G & I) _ IH]; intros i; simpl; auto.
  rewrite (resolve_index_kept i d idx G I). simpl.
  rewrite IH. simpl. now rewrite dict_set_same.
Qed.

(** Entries that are not dicts leave no trace in the result. *)
Lemma normalize_from_length l : forall i out,
  normalize_from i l = Ok out ->
  List.length out = List.length (filter isinstance_dict l).
Proof.
  induction l as [|tc l IH]; simpl; intros i out H.
  - now inversion H.
  - destruct tc; simpl; eauto.
    destruct (resolve_index i d); simpl in H; [|discriminate].
    destruct (normalize_from (S i) l) eqn:N; simpl in H; [|discriminate].
    inversion H; subst. simpl. f_equal. eauto.
Qed.

(** Whenever the normaliser returns, every entry it returns is a dict
    whose ["index"] is an [int]. *)
Lemma normalize_resolves l out :
  _normalize_tool_calls l = Ok out -> Forall normalized out.
Proof. apply normalize_from_normalized. Qed.

(** C6: every index is resolved to an integer.  Not on the code: an
    index such as the superscript two passes [isdigit] and is then
    refused by [int], so the normaliser raises [ValueError] instead of
    falling back to the position. *)
Theorem normalize_superscript_index_raises :
  isdigit superscript_two = true
  /\ str_forallb is_decimal superscript_two = false
  /\ _normalize_tool_calls
       [PDict [("id", PStr "call_0"); ("index", PStr superscript_two)]]
     = Raise (ValueError "invalid literal for int()").
Proof. repeat split. Qed.

(** C7: normalising a normalised call list changes nothing: doing it
    twice is doing it once. *)
Theorem normalize_idempotent (l : list pyval) :
  (out <-? _normalize_tool_calls l ;; _normalize_tool_calls out)%res
  = _normalize_tool_calls l.
Proof.
  destruct (_normalize_tool_calls l) as [out|e] eqn:N; simpl; auto.
  apply normalize_from_fixed. eapply normalize_resolves; eauto.
Qed.

(** ** What a step of the loop adds to the trace *)

Section Adds.
Variable Q : event -> Prop.

Lemma adds_ret {A} (a : A) : adds Q (ret a).
Proof. intros s. exists []. simpl. now rewrite app_nil_r. Qed.

Lemma adds_raise {A} (e : exn) : adds Q (@raise A e).
Proof. intros s. exists []. simpl. now rewrite app_nil_r. Qed.

Lemma adds_lift {A} (r : result A) : adds Q (lift r).
Proof. intros s. exists []. simpl. now rewrite app_nil_r. Qed.

Lemma adds_get_messages : adds Q get_messages.
Proof. intros s. exists []. simpl. now rewrite app_nil_r. Qed.

Lemma adds_clock : adds Q clock.
Proof. intros s. exists []. simpl. now rewrite app_nil_r. Qed.

Lemma adds_append_message m : adds Q (append_message m).
Proof. intros s. exists []. simpl. now rewrite app_nil_r. Qed.

Lemma adds_put_messages ms : adds Q (put_messages ms).
Proof. intros s. exists []. simpl. now rewrite app_nil_r. Qed.

Lemma adds_log e : Q e -> adds Q (log e).
Proof. intros H s. exists [e]. simpl. auto. Qed.

Lemma adds_bind {A B} (m : M A) (f : A -> M B) :
  adds Q m -> (forall a, adds Q (f a)) -> adds Q (bind m f).
Proof.
  intros Hm Hf s. unfold bind.
  destruct (Hm s) as (n1 & E1 & F1).
  destruct (m s) as [[a|e] s1]; simpl in *.
  - destruct (Hf a s1) as (n2 & E2 & F2).
    exists (n1 ++ n2). rewrite E2, E1, app_assoc. split; auto.
    apply Forall_app; auto.
  - exists n1. auto.
Qed.

Lemma adds_try_reraise {A} (body : M A) (handler : exn -> M unit) :
  adds Q body -> (forall e, adds Q (handler e)) ->
  adds Q (try_reraise body handler).
Proof.
  intros Hb Hh s. unfold try_reraise.
  destruct (Hb s) as (n1 & E1 & F1).
  destruct (body s) as [[a|e] s1]; simpl in *.
  - exists n1. auto.
  - destruct (Hh e s1) as (n2 & E2 & F2).
    exists (n1 ++ n2). rewrite E2, E1, app_assoc. split; auto.
    apply Forall_app; auto.
Qed.
End Adds.

Create HintDb adds.
#[export] Hint Resolve adds_ret adds_raise adds_lift adds_get_messages adds_clock
  adds_append_message adds_put_messages : adds.

(** Breaks a monadic term into its steps. *)
Ltac adds_steps :=
  repeat first
    [ solve [auto with adds]
    | apply adds_bind; [|intros ?]
    | apply adds_log
    | match goal with
      | |- adds _ (match ?x with _ => _ end) => destruct x
      | |- adds _ (if ?b then _ else _) => destruct b
      | |- adds _ (let (_, _) := ?x in _) => destruct x
      end ].

Lemma filter_added (p : event -> bool) tr new :
  Forall (fun e => p e = false) new -> filter p (tr ++ new) = filter p tr.
Proof.
  intros F. rewrite filter_app.
  replace (filter p new) with (@nil event); [now rewrite app_nil_r|].
  induction F as [|e new He _ IH]; simpl; auto. now rewrite He.
Qed.

Lemma neither_status d h : neither (EvStatus d h).
Proof. now split. Qed.

Lemma neither_invoke t kw : neither (EvInvoke t kw).
Proof. now split. Qed.

Lemma neither_report e : neither (EvErrorReport e).
Proof. now split. Qed.

#[export] Hint Resolve neither_status neither_invoke neither_report : adds.

Lemma adds_emit args e : neither e -> adds neither (emit args e).
Proof. intros H. unfold emit. adds_steps. Qed.

Lemma adds_dispatch host args ses tc : adds neither (dispatch host args ses tc).
Proof. unfold dispatch. adds_steps. Qed.

Lemma adds_dispatch_all host args ses l :
  adds neither (dispatch_all host args ses l).
Proof.
  induction l as [|tc l IH]; simpl; adds_steps.
Qed.

Lemma adds_announce args l : adds neither (announce args l).
Proof. unfold announce. adds_steps. Qed.

#[export] Hint Resolve adds_emit adds_dispatch adds_dispatch_all adds_announce : adds.

Lemma adds_decide_calls msg : adds no_completion (decide_calls msg).
Proof. unfold decide_calls. adds_steps. reflexivity. Qed.

Lemma adds_conclude host args ses calls msg :
  adds neither (conclude host args ses calls msg).
Proof. unfold conclude. adds_steps. Qed.

(** ** The round, step by step *)

Lemma round_steps host args ses k s :
  let fd := form_data args ses (messages s) in
  round host args ses k s =
  match chat_completion host k fd with
  | Raise e => (Raise e, requested fd s)
  | Ok data =>
      match message_of data with
      | Raise e => (Raise e, requested fd s)
      | Ok msg =>
          match decide_calls msg (requested fd s) with
          | (Raise e, s') => (Raise e, s')
          | (Ok decided, s') => conclude host args ses (fst decided) (snd decided) s'
          end
      end
  end.
Proof.
  unfold round, bind, get_messages, log, lift, requested. simpl.
  destruct (chat_completion host k _) as [data|e]; auto.
Qed.

Lemma decide_calls_steps msg s :
  decide_calls msg s =
  match structured_calls msg with
  | Raise e => (Raise e, s)
  | Ok (tc :: l) => (Ok (tc :: l, msg), s)
  | Ok [] =>
      let s' := {| messages := messages s;
                   trace := trace s ++ [EvExtract (content_of msg)] |} in
      match (found <-? extract_dyn (content_of msg) ;; _normalize_tool_calls found)%res with
      | Raise e => (Raise e, s')
      | Ok [] => (Ok ([], msg), s')
      | Ok (tc :: l) =>
          match as_str "split" (content_of msg) with
          | Raise e => (Raise e, s')
          | Ok text =>
              (Ok (tc :: l,
                   dict_set "content" (PStr (rstrip (split_head marker text))) msg), s')
          end
      end
  end.
Proof.
  unfold decide_calls, bind, lift, log, ret. simpl.
  destruct (structured_calls msg) as [[|tc l]|e]; auto.
  destruct (rbind (extract_dyn (content_of msg)) _) as [[|tc l]|e]; auto.
Qed.

(** ** Structured calls before text calls *)

Lemma normalize_keeps_dicts l : forall i,
  existsb isinstance_dict l = true -> normalize_from i l <> Ok [].
Proof.
  intros i H N. apply normalize_from_length in N. simpl in N.
  induction l as [|tc l IH]; simpl in *; [discriminate|].
  destruct (isinstance_dict tc); simpl in *; [discriminate|auto].
Qed.

Lemma structured_calls_present msg l :
  dict_get "tool_calls" msg = Some (PList l) ->
  existsb isinstance_dict l = true ->
  structured_calls msg <> Ok [].
Proof.
  intros G H. unfold structured_calls, dict_get_default, py_or. rewrite G.
  destruct l as [|tc l]; [discriminate|]. simpl.
  now apply normalize_keeps_dicts.
Qed.

(** Text extraction is attempted only when the structured path yields no
    calls. *)
Lemma extraction_only_without_structured msg s :
  extracts (trace (snd (decide_calls msg s))) <> extracts (trace s) ->
  structured_calls msg = Ok [].
Proof.
  rewrite decide_calls_steps.
  destruct (structured_calls msg) as [[|tc l]|e]; simpl; congruence.
Qed.

(** And it is attempted whenever the structured path yields none. *)
Lemma extraction_without_structured msg s :
  structured_calls msg = Ok [] ->
  extracts (trace (snd (decide_calls msg s)))
  = extracts (trace s) ++ [EvExtract (content_of msg)].
Proof.
  intros S. rewrite decide_calls_steps, S. cbv zeta.
  assert (E : extracts (trace s ++ [EvExtract (content_of msg)])
              = extracts (trace s) ++ [EvExtract (content_of msg)])
    by (unfold extracts; now rewrite filter_app).
  destruct (rbind (extract_dyn (content_of msg)) _) as [[|tc l]|e]; simpl; auto.
  destruct (as_str "split" (content_of msg)); simpl; auto.
Qed.

(** C2: when the response of a round carries structured tool calls (its
    [tool_calls] holds at least one call object), the round makes no
    call of the text extractor, whatever its content says. *)
Theorem structured_calls_skip_extraction host args ses k s data msg l :
  chat_completion host k (form_data args ses (messages s)) = Ok data ->
  message_of data = Ok msg ->
  dict_get "tool_calls" msg = Some (PList l) ->
  existsb isinstance_dict l = true ->
  extracts (trace (snd (round host args ses k s))) = extracts (trace s).
Proof.
  intros C Mg G H. pose proof (structured_calls_present msg l G H) as P.
  rewrite round_steps. cbv zeta. rewrite C, Mg, decide_calls_steps.
  assert (Hc : forall calls m,
             extracts (trace (snd (conclude host args ses calls m
                                     (requested (form_data args ses (messages s)) s))))
             = extracts (trace s)).
  { intros calls m.
    destruct (adds_conclude host args ses calls m
                (requested (form_data args ses (messages s)) s)) as (new & E & F).
    rewrite E. simpl. unfold extracts. rewrite <- app_assoc. apply filter_added.
    constructor; [reflexivity|].
    eapply Forall_impl; [|exact F]. now intros e []. }
  destruct (structured_calls msg) as [[|tc r]|e].
  - congruence.
  - apply Hc.
  - simpl. unfold extracts. now apply filter_added; constructor.
Qed.

Lemma structured_calls_skip_extraction_witness :
  chat_completion both_host 0
    (form_data sample_args sample_session (messages initial_state)) = Ok both_reply
  /\ contains marker foo_call = true
  /\ extracts (trace (snd (round both_host sample_args sample_session 0 initial_state)))
     = extracts (trace initial_state).
Proof.
  split; [reflexivity|]. split; [reflexivity|].
  apply (structured_calls_skip_extraction both_host sample_args sample_session 0
           initial_state both_reply
           [("role", PStr "assistant"); ("content", PStr foo_call);
            ("tool_calls", PList [structured_call "ghost" "{}"])]
           [structured_call "ghost" "{}"]); reflexivity.
Defined.

(** ** Text call extractor *)

(** Without the opening marker the extractor returns at once. *)
Lemma extract_fast_path content :
  contains marker content = false -> _extract_text_tool_calls content = [].
Proof.
  intros H. unfold _extract_text_tool_calls. rewrite H. simpl.
  now rewrite orb_true_r.
Qed.

(** The example of the specification. *)
Lemma extract_foo :
  _extract_text_tool_calls foo_call
  = [PDict [("index", PInt 0); ("id", PStr "call_text_0"); ("type", PStr "function");
            ("function",
             PDict [("name", PStr "foo");
                    ("arguments",
                     PStr (json_dumps_args [("x", "1")]))])]].
Proof. reflexivity. Qed.

(** Behind a marker in lower case, the casing of the other tags and the
    line breaks between them do not matter. *)
Lemma extract_mixed_case :
  _extract_text_tool_calls "<function=foo>
<PARAMETER=x>
  1
</Parameter>
</FUNCTION>"
  = _extract_text_tool_calls foo_call.
Proof. reflexivity. Qed.

(** C3: tags in any letter casing produce the call.  Not on the code:
    the pattern does match the call written in capitals, but the test of
    line 65 looks for the marker in lower case only and returns the
    empty list before the pattern is tried. *)
Theorem extract_capitals_missed :
  findall "function" foo_call_capitals = [("foo", "<parameter=x>1</parameter>")]
  /\ contains marker foo_call_capitals = false
  /\ _extract_text_tool_calls foo_call_capitals = [].
Proof. repeat split. Qed.

(** ** The stored assistant content *)

Lemma prefix_app m p q :
  String.prefix m p = true -> String.prefix m (p ++ q) = true.
Proof.
  revert m. induction p as [|b p IH]; intros m H.
  - destruct m; [|discriminate]. now destruct q.
  - destruct m as [|a m]; [reflexivity|]. simpl in *.
    destruct (ascii_dec a b); auto.
Qed.

Lemma contains_app m p q :
  contains m p = true -> contains m (p ++ q) = true.
Proof.
  induction p as [|c p IH].
  - simpl. rewrite orb_false_r. intros H.
    destruct m; [|discriminate]. now destruct q.
  - cbn [contains]. intros H. apply orb_true_iff in H.
    change (String c p ++ q)%string with (String c (p ++ q)).
    cbn [contains]. apply orb_true_iff. destruct H as [H|H].
    + left. now apply (prefix_app m (String c p) q).
    + right. auto.
Qed.

Lemma split_head_app m s : exists rest, s = (split_head m s ++ rest)%string.
Proof.
  induction s as [|c s (rest & IH)].
  - cbn [split_head]. destruct (String.prefix m EmptyString); now exists EmptyString.
  - cbn [split_head]. destruct (String.prefix m (String c s)).
    + now exists (String c s).
    + exists rest. simpl. now rewrite <- IH.
Qed.

Lemma rstrip_app t : exists w, t = (rstrip t ++ w)%string.
Proof.
  induction t as [|c t (w & IH)].
  - now exists EmptyString.
  - cbn [rstrip]. destruct (rstrip t) as [|r rs] eqn:R.
    + destruct (py_isspace c).
      * now exists (String c t).
      * exists w. simpl. simpl in IH. now rewrite <- IH.
    + exists w. simpl. simpl in IH. now rewrite <- IH.
Qed.

(** The text before the first marker holds no marker. *)
Lemma split_head_clean s : contains marker (split_head marker s) = false.
Proof.
  induction s as [|c s IH]; [reflexivity|].
  cbn [split_head]. destruct (String.prefix marker (String c s)) eqn:P;
    [reflexivity|].
  cbn [contains]. rewrite IH, orb_false_r.
  destruct (String.prefix marker (String c (split_head marker s))) eqn:P';
    [|reflexivity].
  destruct (split_head_app marker s) as (rest & E).
  apply (prefix_app marker _ rest) in P'. simpl in P'.
  rewrite <- E in P'. simpl in P. congruence.
Qed.

(** Cutting at the first marker and trimming leaves no marker written in
    lower case. *)
Lemma truncated_clean s : contains marker (rstrip (split_head marker s)) = false.
Proof.
  destruct (contains marker (rstrip (split_head marker s))) eqn:C; [|reflexivity].
  destruct (rstrip_app (split_head marker s)) as (w & E).
  apply (contains_app marker _ w) in C. rewrite <- E in C.
  now rewrite split_head_clean in C.
Qed.

(** When the calls of a round come from the text, the content kept for
    the assistant message is the text before the first lower-case marker,
    trimmed on the right. *)
Lemma text_calls_truncate msg s tc calls msg' s' :
  structured_calls msg = Ok [] ->
  decide_calls msg s = (Ok (tc :: calls, msg'), s') ->
  exists text,
    content_of msg = PStr text
    /\ content_of msg' = PStr (rstrip (split_head marker text))
    /\ contains marker (rstrip (split_head marker text)) = false.
Proof.
  intros S. rewrite decide_calls_steps, S.
  destruct (rbind (extract_dyn (content_of msg)) _) as [[|tc' l]|e];
    try discriminate.
  destruct (content_of msg) as [| | | |text| |] eqn:C; simpl; try discriminate.
  intros H. inversion H; subst. exists text. repeat split.
  - unfold content_of, dict_get_default, py_or.
    rewrite dict_get_set_eq. simpl.
    destruct (String.eqb_spec (rstrip (split_head marker text)) EmptyString) as [->|];
      reflexivity.
  - apply truncated_clean.
Qed.

(** C8: the call markup never appears in the stored assistant content.
    Not on the code: the pattern finds calls in any letter casing, the
    cut of line 238 is made at the first marker written in lower case,
    so a call written in capitals before it is dispatched and stays in
    the stored content. *)
Theorem capitals_markup_stored :
  let run := subquery Tools_init capitals_host sample_args in
  let stored := "<FUNCTION=a></FUNCTION>" in
  fst run = Ok "done"
  /\ (exists calls,
        nth_error (messages (snd run)) 1 = Some (assistant_message (PStr stored) calls)
        /\ map call_name calls = [Ok (PStr "a"); Ok (PStr "b")])
  /\ findall "function" stored = [("a", EmptyString)].
Proof.
  cbv zeta. split; [reflexivity|]. split; [|reflexivity].
  eexists. split; reflexivity.
Qed.

(** ** Tool dispatcher *)

Lemma call_name_inv tc nm :
  call_name tc = Ok nm ->
  exists d f, tc = PDict d /\ dict_get "function" d = Some (PDict f)
              /\ dict_get "name" f = Some nm.
Proof.
  unfold call_name, py_item, dict_item.
  destruct tc; simpl; try discriminate.
  destruct (dict_get "function" d) as [f|] eqn:F; simpl; try discriminate.
  destruct f; simpl; try discriminate.
  destruct (dict_get "name" d0) as [n|] eqn:N; simpl; try discriminate.
  intros H. inversion H; subst. eauto.
Qed.

(** A call whose name the registry does not know is answered by the
    notice, whatever hashable value the name is. *)
Lemma dispatch_not_found host args ses tc nm s :
  call_name tc = Ok nm ->
  registry_get nm (tools_registry ses) = Ok None ->
  exists tc_id,
    py_get "id" (PStr EmptyString) tc = Ok tc_id
    /\ dispatch host args ses tc s
       = (Ok tt, {| messages := messages s ++ [tool_message tc_id nm (not_found_notice nm)];
                    trace := trace s |}).
Proof.
  intros C R. destruct (call_name_inv tc nm C) as (d & f & -> & F & N).
  exists (dict_get_default "id" (PStr EmptyString) d). split; [reflexivity|].
  unfold dispatch, bind, lift, py_item, dict_item, py_get. simpl.
  rewrite F. simpl. rewrite N. simpl. rewrite R. reflexivity.
Qed.

(** C4: a call to a name the registry does not hold does not raise; it
    appends exactly one tool message, whose content is the notice built
    around the requested name, and the rest of the batch is dispatched
    next. *)
Theorem dispatch_unregistered host args ses tc nm rest s :
  call_name tc = Ok (PStr nm) ->
  dict_get nm (tools_registry ses) = None ->
  exists tc_id,
    let s' := {| messages :=
                   messages s
                   ++ [PDict [("role", PStr "tool"); ("tool_call_id", tc_id);
                              ("name", PStr nm);
                              ("content", PStr ("Tool '" ++ nm ++ "' not found"))]];
                 trace := trace s |} in
    py_get "id" (PStr EmptyString) tc = Ok tc_id
    /\ dispatch host args ses tc s = (Ok tt, s')
    /\ dispatch_all host args ses (tc :: rest) s = dispatch_all host args ses rest s'.
Proof.
  intros C R.
  destruct (dispatch_not_found host args ses tc (PStr nm) s C) as (tc_id & I & D).
  { simpl. now rewrite R. }
  exists tc_id. cbv zeta. repeat split; auto.
  cbn [dispatch_all]. unfold bind at 1. now rewrite D.
Qed.

Lemma dispatch_unregistered_witness :
  call_name (structured_call "ghost" "{}") = Ok (PStr "ghost")
  /\ dict_get "ghost" (tools_registry sample_session) = None
  /\ exists tc_id,
       py_get "id" (PStr EmptyString) (structured_call "ghost" "{}") = Ok tc_id
       /\ dispatch ghost_host sample_args sample_session
                   (structured_call "ghost" "{}") initial_state
          = (Ok tt,
             {| messages :=
                  [PDict [("role", PStr "tool"); ("tool_call_id", tc_id);
                          ("name", PStr "ghost");
                          ("content", PStr "Tool 'ghost' not found")]];
                trace := [] |}).
Proof.
  split; [reflexivity|]. split; [reflexivity|].
  destruct (dispatch_unregistered ghost_host sample_args sample_session
              (structured_call "ghost" "{}") "ghost" [] initial_state
              eq_refl eq_refl) as (tc_id & I & D & _).
  exists tc_id. split; [exact I|exact D].
Defined.

(** ** Keyword arguments of a tool *)

(** After [update], each key of the context holds the context value. *)
Lemma call_kwargs_context args ses parsed msgs :
  Forall (fun kv => dict_get (fst kv) (call_kwargs args ses parsed msgs) = Some (snd kv))
         (context args ses msgs).
Proof.
  unfold call_kwargs, dict_update, context. cbn [fold_left fst snd].
  repeat constructor; cbn [fst snd];
    repeat (rewrite dict_get_set_neq by reflexivity);
    apply dict_get_set_eq.
Qed.

Lemma filter_kwargs_get func kw k :
  dict_get k (_filter_kwargs_for_callable func kw)
  = if accepts func k then dict_get k kw else None.
Proof.
  unfold _filter_kwargs_for_callable, accepts.
  destruct (existsb is_var_keyword (signature func)); simpl; auto.
  apply (dict_get_filter pyobj
           (fun k => existsb (String.eqb k) (map name (signature func)))).
Qed.

(** The keyword arguments of every call of a tool are built by
    [call_kwargs] and [_filter_kwargs_for_callable] from the conversation
    at that point. *)
Lemma dispatch_invokes host args ses tc s :
  trace (snd (dispatch host args ses tc s)) = trace s
  \/ exists t func parsed,
       trace (snd (dispatch host args ses tc s))
       = trace s ++ [EvInvoke t (_filter_kwargs_for_callable func
                                   (call_kwargs args ses parsed (messages s)))].
Proof.
  unfold dispatch, bind, lift, get_messages, log, clock, append_message.
  destruct (py_item "function" tc) as [f|]; simpl; auto.
  destruct (py_item "name" f) as [nm|]; simpl; auto.
  destruct (py_get "arguments" (PStr EmptyString) f) as [a|]; simpl; auto.
  destruct (py_get "id" (PStr EmptyString) tc) as [tc_id|]; simpl; auto.
  destruct (registry_get nm (tools_registry ses)) as [[func|]|]; simpl; auto.
  destruct (rbind (as_str "strip" (py_or a (PStr EmptyString))) _) as [parsed|];
    simpl; auto.
  unfold raise, ret.
  destruct (other_keys parsed && existsb is_var_keyword (signature func));
    simpl; auto.
  right. exists (py_str nm), func, (str_items parsed).
  destruct (callable func _ _) as [res|]; simpl; auto.
  destruct (match res with PStr s0 => Ok s0 | _ => json_dumps host res end);
    simpl; auto.
Qed.

(** C9: whatever the parsed arguments hold, for each of the eight
    context keys the value handed to the tool is the injected context
    value when the callable accepts the key, and the key is not passed
    at all otherwise; an argument of the model never takes its place. *)
Theorem context_not_overridden args ses func parsed msgs :
  Forall (fun kv =>
            dict_get (fst kv)
                     (_filter_kwargs_for_callable func (call_kwargs args ses parsed msgs))
            = if accepts func (fst kv) then Some (snd kv) else None)
         (context args ses msgs)
  /\ map fst (context args ses msgs)
     = ["__user__"; "user"; "__metadata__"; "__messages__"; "__files__";
        "__model__"; "__request__"; "__event_emitter__"].
Proof.
  split; [|reflexivity].
  eapply Forall_impl; [|apply call_kwargs_context].
  intros kv H. cbv beta in *. rewrite filter_kwargs_get, H. reflexivity.
Qed.

(** A model that sends its own ["__user__"] and ["__request__"]. *)
Lemma override_attempt :
  let forged := [("text", PStr "hi"); ("__user__", PDict [("role", PStr "admin")]);
                 ("__request__", PStr "forged")] in
  _filter_kwargs_for_callable echo_tool
    (call_kwargs sample_args sample_session forged [])
  = [("text", OVal (PStr "hi")); ("__user__", OVal (__user__ sample_args))]
  /\ dict_get "__request__"
       (_filter_kwargs_for_callable open_tool
          (call_kwargs sample_args sample_session forged []))
     = Some (ORequest "req").
Proof. split; reflexivity. Qed.

(** ** The round limit *)

Lemma adds_weaken {A} (Q Q' : event -> Prop) (m : M A) :
  (forall e, Q e -> Q' e) -> adds Q m -> adds Q' m.
Proof.
  intros W H s. destruct (H s) as (new & E & F).
  exists new. split; auto. eapply Forall_impl; eauto.
Qed.

Lemma neither_no_completion e : neither e -> no_completion e.
Proof. now intros []. Qed.

Lemma adds_count {A} (m : M A) s :
  adds no_completion m ->
  rounds_executed (trace (snd (m s))) = rounds_executed (trace s).
Proof.
  intros H. destruct (H s) as (new & E & F).
  unfold rounds_executed. rewrite E. f_equal. now apply filter_added.
Qed.

Lemma adds_prepare host args : adds no_completion (prepare host args).
Proof.
  unfold prepare. adds_steps;
    try (eapply adds_weaken; [apply neither_no_completion|]; auto with adds).
Qed.

Lemma adds_report args e : adds no_completion (report args e).
Proof. unfold report. adds_steps. reflexivity. Qed.

(** A round makes one completion request, its first event. *)
Lemma round_trace host args ses k s :
  exists new,
    trace (snd (round host args ses k s))
    = trace s ++ EvCompletion (form_data args ses (messages s)) :: new
    /\ Forall no_completion new.
Proof.
  rewrite round_steps. cbv zeta.
  set (fd := form_data args ses (messages s)).
  assert (Hnil : trace (requested fd s) = trace s ++ [EvCompletion fd]) by reflexivity.
  destruct (chat_completion host k fd) as [data|e]; [|exists []; auto].
  destruct (message_of data) as [msg|e]; [|exists []; auto].
  destruct (adds_decide_calls msg (requested fd s)) as (n1 & E1 & F1).
  destruct (decide_calls msg (requested fd s)) as [[[calls msg']|e] s1]; simpl in *.
  - destruct (adds_conclude host args ses calls msg' s1) as (n2 & E2 & F2).
    exists (n1 ++ n2). rewrite E2, E1, <- !app_assoc. split; auto.
    apply Forall_app. split; auto.
    eapply Forall_impl; [apply neither_no_completion|auto].
  - exists n1. rewrite E1, <- app_assoc. auto.
Qed.

Lemma round_count host args ses k s :
  rounds_executed (trace (snd (round host args ses k s)))
  = S (rounds_executed (trace s)).
Proof.
  destruct (round_trace host args ses k s) as (new & E & F).
  unfold rounds_executed. rewrite E, filter_app, length_app. simpl.
  replace (filter is_completion new) with (@nil event); [simpl; lia|].
  clear E. induction F as [|e new He _ IH]; simpl; auto. now rewrite He.
Qed.

Lemma rounds_step self host args ses n k s :
  rounds self host args ses (S n) k s =
  match round host args ses k s with
  | (Ok (Some text), s') => (Ok text, s')
  | (Ok None, s') => rounds self host args ses n (S k) s'
  | (Raise e, s') => (Raise e, s')
  end.
Proof.
  cbn [rounds]. unfold bind.
  destruct (round host args ses k s) as [[[text|]|e] s']; reflexivity.
Qed.

(** The loop never runs more rounds than it was given. *)
Lemma rounds_bounded self host args ses n : forall k s,
  (rounds_executed (trace (snd (rounds self host args ses n k s)))
   <= rounds_executed (trace s) + n)%nat.
Proof.
  induction n as [|n IH]; intros k s.
  - simpl. lia.
  - rewrite rounds_step. pose proof (round_count host args ses k s) as C.
    destruct (round host args ses k s) as [[[text|]|e] s']; simpl in *; try lia.
    specialize (IH (S k) s'). lia.
Qed.

(** A loop whose rounds all fall through ends at line 368, after as many
    rounds as it was given. *)
Lemma rounds_exhausted self host args ses n : forall k s,
  keeps_calling host args ses n k s ->
  fst (rounds self host args ses n k s) = Raise (round_limit_error self)
  /\ rounds_executed (trace (snd (rounds self host args ses n k s)))
     = (rounds_executed (trace s) + n)%nat.
Proof.
  induction n as [|n IH]; intros k s K.
  - simpl. split; auto.
  - inversion K as [|n' k' s0 s' R K']; subst.
    rewrite rounds_step, R.
    destruct (IH (S k) s' K') as (O & C). split; auto.
    rewrite C. pose proof (round_count host args ses k s) as RC.
    rewrite R in RC. simpl in RC. lia.
Qed.

(** What it takes for a round to fall through: an answer, at least one
    call in it, and a dispatch that does not raise. *)
Lemma round_falls_through host args ses k s s' :
  round host args ses k s = (Ok None, s') <->
  exists data msg tc calls msg' s1,
    chat_completion host k (form_data args ses (messages s)) = Ok data
    /\ message_of data = Ok msg
    /\ decide_calls msg (requested (form_data args ses (messages s)) s)
       = (Ok (tc :: calls, msg'), s1)
    /\ conclude host args ses (tc :: calls) msg' s1 = (Ok None, s').
Proof.
  rewrite round_steps. cbv zeta. split.
  - destruct (chat_completion host k _) as [data|e]; [|discriminate].
    destruct (message_of data) as [msg|e] eqn:Mg; [|discriminate].
    destruct (decide_calls msg _) as [[[calls msg']|e] s1] eqn:D; [|discriminate].
    simpl. destruct calls as [|tc calls].
    + unfold conclude, bind, emit, lift, ret.
      destruct (__event_emitter__ args); simpl;
        destruct (py_strip (content_of msg')); discriminate.
    + intros H. exists data, msg, tc, calls, msg', s1. repeat split; auto.
  - intros (data & msg & tc & calls & msg' & s1 & C & Mg & D & H).
    now rewrite C, Mg, D.
Qed.

(** C1, as the code has it: no invocation makes more than [max_rounds]
    completion rounds; and when the preparation succeeds and each of the
    [max_rounds] rounds falls through to the next, the invocation ends
    with the round-limit error after exactly [max_rounds] rounds.  A
    round falls through ([round] returns [None], see
    [round_falls_through]) when its response holds at least one call and
    no step of it raises: not the completion request, not the reading of
    the response and of its calls, not the status line for two or more
    calls, not the dispatch of a call. *)
Theorem round_limit_exact self host args :
  (rounds_executed (trace (snd (subquery self host args)))
   <= Z.to_nat (max_rounds self))%nat
  /\ forall ses s0,
       prepare host args initial_state = (Ok ses, s0) ->
       keeps_calling host args ses (Z.to_nat (max_rounds self)) 0 s0 ->
       fst (subquery self host args) = Raise (round_limit_error self)
       /\ rounds_executed (trace (snd (subquery self host args)))
          = Z.to_nat (max_rounds self).
Proof.
  assert (P0 : forall r s0, prepare host args initial_state = (r, s0) ->
                            rounds_executed (trace s0) = 0%nat).
  { intros r s0 E. pose proof (adds_count (prepare host args) initial_state
                                 (adds_prepare host args)) as C.
    now rewrite E in C. }
  unfold subquery, try_reraise, subquery_body, bind.
  destruct (prepare host args initial_state) as [[ses|e] s0] eqn:P.
  - pose proof (P0 _ _ eq_refl) as Z0. split.
    + pose proof (rounds_bounded self host args ses (Z.to_nat (max_rounds self)) 0 s0) as B.
      destruct (rounds self host args ses _ 0 s0) as [[text|e] s1]; simpl in *; [lia|].
      rewrite (adds_count (report args e) s1 (adds_report args e)). lia.
    + intros ses' s0' E K. inversion E; subst ses' s0'.
      destruct (rounds_exhausted self host args ses _ 0 s0 K) as (O & C).
      destruct (rounds self host args ses _ 0 s0) as [[text|e] s1]; simpl in *;
        [discriminate|].
      split; auto.
      rewrite (adds_count (report args e) s1 (adds_report args e)). lia.
  - split; [|discriminate]. simpl.
    rewrite (adds_count (report args e) s0 (adds_report args e)).
    rewrite (P0 _ _ eq_refl). lia.
Qed.

Lemma keeps_callingb_sound host args ses n : forall k s,
  keeps_callingb host args ses n k s = true -> keeps_calling host args ses n k s.
Proof.
  induction n as [|n IH]; intros k s H; [constructor|].
  simpl in H.
  destruct (round host args ses k s) as [[[text|]|e] s'] eqn:R; try discriminate.
  econstructor; eauto.
Qed.

Lemma round_limit_exact_witness :
  prepare ghost_host sample_args initial_state = (Ok ghost_session, ghost_start)
  /\ keeps_callingb ghost_host sample_args ghost_session 8 0 ghost_start = true
  /\ fst (subquery Tools_init ghost_host sample_args)
     = Raise (RuntimeError "[Subquery] exceeded max_rounds=8")
  /\ rounds_executed (trace (snd (subquery Tools_init ghost_host sample_args))) = 8%nat.
Proof.
  assert (P : prepare ghost_host sample_args initial_state
              = (Ok ghost_session, ghost_start)) by reflexivity.
  assert (K : keeps_callingb ghost_host sample_args ghost_session 8 0 ghost_start = true)
    by (vm_compute; reflexivity).
  split; [exact P|]. split; [exact K|].
  apply (proj2 (round_limit_exact Tools_init ghost_host sample_args)
               ghost_session ghost_start P).
  apply keeps_callingb_sound. exact K.
Defined.

(** C1 as stated fails: here every completion response holds a call, and
    the invocation ends in the first round with the error of the tool,
    not with the round-limit error. *)
Lemma round_limit_counterexample :
  (forall k fd, exists data,
      chat_completion failing_host k fd = Ok data /\ yields_call data)
  /\ fst (subquery Tools_init failing_host sample_args)
     = Raise (HostError "tracker is down")
  /\ fst (subquery Tools_init failing_host sample_args)
     <> Raise (round_limit_error Tools_init)
  /\ rounds_executed (trace (snd (subquery Tools_init failing_host sample_args)))
     = 1%nat.
Proof.
  split; [|split; [|split]].
  - intros k fd. eexists. split; [reflexivity|].
    unfold yields_call. do 5 eexists. split; vm_compute; reflexivity.
  - vm_compute. reflexivity.
  - vm_compute. discriminate.
  - vm_compute. reflexivity.
Qed.

(** The status line of lines 266-301 is one of the steps that can end a
    run: with a sink and two calls whose names are no strings, every
    response holds calls and every dispatch would pass, and the run ends
    in its first round on [name.replace]; without a sink the same run
    goes on to the round limit. *)
Lemma status_line_raises :
  fst (subquery Tools_init numbered_host sample_args)
  = Raise (AttributeError "replace")
  /\ rounds_executed (trace (snd (subquery Tools_init numbered_host sample_args)))
     = 1%nat
  /\ fst (subquery Tools_init numbered_host silent_args)
     = Raise (round_limit_error Tools_init)
  /\ rounds_executed (trace (snd (subquery Tools_init numbered_host silent_args)))
     = 8%nat.
Proof. repeat split; vm_compute; reflexivity. Qed.

(** ** Arguments that are no JSON object *)

(** [dict()] of a JSON array takes its elements as pairs. *)
Lemma dict_of_pairs :
  py_dict pairs_json
  = Ok {| str_items := [("text", PStr "hi"); ("a", PStr "b")]; other_keys := true |}
  /\ py_dict (PList [PList [PStr "k"; PInt 1]; PList [PStr "k"; PInt 2]])
     = Ok {| str_items := [("k", PInt 2)]; other_keys := false |}
  /\ py_dict (PList [PList [PList []; PInt 1]]) = Raise (TypeError "unhashable type")
  /\ py_dict (PList [PInt 1])
     = Raise (TypeError "cannot convert dictionary update sequence element to a sequence")
  /\ py_dict (PStr "ab")
     = Raise (ValueError "dictionary update sequence element: 2 is required")
  /\ py_dict (PStr EmptyString) = Ok {| str_items := []; other_keys := false |}
  /\ py_dict (PInt 3) = Raise (TypeError "object is not iterable").
Proof. repeat split; reflexivity. Qed.

(** Such arguments reach a tool with a fixed signature, filtered like any
    others; a tool that takes [**kwargs] cannot be called with a key that
    is no string. *)
Lemma dispatch_pairs :
  dispatch pairs_host sample_args (tracker_session echo_tool)
           (structured_call "tracker" "[]") initial_state
  = (Ok tt,
     {| messages := [tool_message (PStr "call_0") (PStr "tracker") "pong"];
        trace := [EvInvoke "tracker" [("text", OVal (PStr "hi"));
                                      ("__user__", OVal (__user__ sample_args))]] |})
  /\ dispatch pairs_host sample_args (tracker_session open_tool)
              (structured_call "tracker" "[]") initial_state
     = (Raise (TypeError "keywords must be strings"), initial_state).
Proof. split; reflexivity. Qed.

(** ** The run as a whole *)

(** The conversation the first round starts from. *)
Lemma prepare_messages host args ses s0 :
  prepare host args initial_state = (Ok ses, s0) ->
  messages s0
  = initial_messages (prompt args) (include_recent_messages args) (__messages__ args).
Proof.
  unfold prepare, bind, emit, lift, ret, raise, put_messages, log.
  destruct (__event_emitter__ args); simpl;
    (destruct (__request__ args); simpl; [|discriminate]);
    (destruct (__user__ args); simpl; try discriminate);
    (destruct (model_id_present args); simpl; [|discriminate]);
    try discriminate;
    (destruct (user_model host d); simpl; [|discriminate]);
    (destruct (py_item "id" (__model__ args)); simpl; [|discriminate]);
    (destruct (inherited_tool_ids args) as [[|t ts]|]; simpl;
     try (destruct (get_tools host _ _ _ _); simpl; [|discriminate]));
    intros H; inversion H; reflexivity.
Qed.

Lemma adds_rounds self host args ses Q n :
  (forall k, adds Q (round host args ses k)) ->
  forall k, adds Q (rounds self host args ses n k).
Proof.
  intros R. induction n as [|n IH]; intros k; simpl.
  - apply adds_raise.
  - apply adds_bind; auto. intros [text|]; auto. apply adds_ret.
Qed.

Lemma guarded_round host args ses k : adds (guarded args) (round host args ses k).
Proof.
  unfold round, decide_calls, conclude, announce, emit.
  assert (D : forall l, adds (guarded args) (dispatch_all host args ses l)).
  { induction l as [|tc l IH]; simpl; [apply adds_ret|].
    apply adds_bind; [|auto].
    unfold dispatch. adds_steps; try exact I. simpl. eauto. }
  adds_steps; try exact I; auto.
Qed.

Lemma guarded_subquery self host args :
  adds (guarded args) (try_reraise (subquery_body self host args) (report args)).
Proof.
  apply adds_try_reraise.
  - unfold subquery_body. apply adds_bind.
    + unfold prepare, emit. adds_steps; exact I.
    + intros ses. apply adds_rounds. apply guarded_round.
  - intros e. unfold report. adds_steps. exact I.
Qed.

(** Every tool call of every run is handed keyword arguments in which
    each context key it holds carries the context value. *)
Lemma invocations_guarded self host args t kw :
  In (EvInvoke t kw) (trace (snd (subquery self host args))) ->
  exists ses msgs,
    Forall (fun kv => dict_get (fst kv) kw
                      = if dict_mem (fst kv) kw then Some (snd kv) else None)
           (context args ses msgs).
Proof.
  unfold subquery.
  destruct (guarded_subquery self host args initial_state) as (new & E & F).
  rewrite E. simpl. intros H.
  rewrite Forall_forall in F.
  destruct (F _ H) as (ses & func & parsed & msgs & ->).
  exists ses, msgs.
  eapply Forall_impl; [|apply call_kwargs_context].
  intros [k v] G. cbv beta in *. cbn [fst snd] in *.
  unfold dict_mem. rewrite filter_kwargs_get, G.
  now destruct (accepts func k).
Qed.

(** ** The scenarios of the specification *)

Example scenario_plain_answer :
  let run := subquery Tools_init plain_host sample_args in
  fst run = Ok "Two tickets are open."
  /\ messages (snd run) = [user_message "Which tickets are open?"]
  /\ rounds_executed (trace (snd run)) = 1%nat.
Proof. vm_compute. repeat split. Qed.

Example scenario_structured_call :
  let run := subquery Tools_init echo_host sample_args in
  fst run = Ok "pong it is"
  /\ roles (messages (snd run)) = [PStr "user"; PStr "assistant"; PStr "tool"]
  /\ nth_error (messages (snd run)) 2
     = Some (tool_message (PStr "call_0") (PStr "tracker") "pong")
  /\ rounds_executed (trace (snd run)) = 2%nat.
Proof. vm_compute. repeat split. Qed.

Example scenario_two_text_calls :
  let run := subquery Tools_init two_calls_host sample_args in
  fst run = Ok "done"
  /\ skipn 1 (messages (snd run))
     = [assistant_message (PStr "Let me look.") (_extract_text_tool_calls two_calls);
        tool_message (PStr "call_text_0") (PStr "first") "Tool 'first' not found";
        tool_message (PStr "call_text_1") (PStr "second") "Tool 'second' not found"].
Proof. vm_compute. repeat split. Qed.

(* ------------------------------------------------------------------ *)
(** * Further properties of the code *)

(** ** [_tail_messages] and the initial conversation *)

Lemma tail_entry_fixed m : history_entry m -> tail_entry m = [m].
Proof.
  intros (r & c & -> & [->|[->| ->]]); reflexivity.
Qed.

Lemma flat_map_tail_fixed l :
  Forall history_entry l -> flat_map tail_entry l = l.
Proof.
  induction 1 as [|m l H _ IH]; simpl; auto.
  now rewrite (tail_entry_fixed m H), IH.
Qed.

Lemma slice_from_whole {A} (l : list A) n :
  0 <= n -> n = 0 \/ Z.of_nat (List.length l) <= n -> slice_from (- n) l = l.
Proof.
  intros Hn H. unfold slice_from.
  destruct (Z.ltb_spec (- n) 0).
  - replace (Z.to_nat (Z.max 0 (- n + Z.of_nat (List.length l)))) with 0%nat by lia.
    reflexivity.
  - replace (Z.to_nat (Z.min (- n) (Z.of_nat (List.length l)))) with 0%nat by lia.
    reflexivity.
Qed.

(** X1: taking the tail of a tail changes nothing: for a count
    [n >= 0], [_tail_messages] applied to its own result with the same
    count returns that result. *)
Theorem tail_messages_idempotent (msgs : list pyval) (n : Z) :
  0 <= n ->
  _tail_messages (_tail_messages msgs n) n = _tail_messages msgs n.
Proof.
  intros Hn.
  assert (S : slice_from (- n) (_tail_messages msgs n) = _tail_messages msgs n).
  { apply slice_from_whole; auto.
    destruct (Z.eq_dec n 0) as [|N]; auto. right.
    pose proof (tail_messages_length msgs n). lia. }
  unfold _tail_messages at 1. rewrite S.
  apply flat_map_tail_fixed. apply tail_messages_shape.
Qed.

Lemma tail_messages_idempotent_witness :
  0 <= 1
  /\ _tail_messages
       (_tail_messages [PDict [("role", PStr "tool"); ("content", PStr "t")];
                        PDict [("role", PStr "user"); ("name", PStr "n")]] 1) 1
     = [PDict [("role", PStr "user"); ("content", PStr EmptyString)]].
Proof.
  split; [lia|].
  rewrite (tail_messages_idempotent
             [PDict [("role", PStr "tool"); ("content", PStr "t")];
              PDict [("role", PStr "user"); ("name", PStr "n")]] 1) by lia.
  reflexivity.
Defined.

(** X2: a count that is zero or negative does not give an empty tail:
    for [k >= 0], [_tail_messages msgs (-k)] is made of all the messages
    after the first [k], so with a count of 0 of the whole history. *)
Theorem tail_messages_nonpositive (msgs : list pyval) (k : Z) :
  0 <= k ->
  _tail_messages msgs (- k) = flat_map tail_entry (skipn (Z.to_nat k) msgs).
Proof.
  intros Hk. unfold _tail_messages, slice_from. rewrite Z.opp_involutive.
  destruct (Z.ltb_spec k 0); [lia|].
  destruct (Z.le_gt_cases k (Z.of_nat (List.length msgs))).
  - now rewrite Z.min_l by lia.
  - rewrite Z.min_r by lia. rewrite Nat2Z.id.
    rewrite skipn_all. rewrite skipn_all2 by lia. reflexivity.
Qed.

Lemma tail_messages_nonpositive_witness :
  0 <= 1
  /\ _tail_messages [PDict [("role", PStr "system"); ("content", PStr "s")];
                     PDict [("role", PStr "user"); ("content", PStr "a")];
                     PDict [("role", PStr "assistant"); ("content", PStr "b")]] (- (1))
     = [PDict [("role", PStr "user"); ("content", PStr "a")];
        PDict [("role", PStr "assistant"); ("content", PStr "b")]].
Proof.
  split; [lia|].
  rewrite (tail_messages_nonpositive
             [PDict [("role", PStr "system"); ("content", PStr "s")];
              PDict [("role", PStr "user"); ("content", PStr "a")];
              PDict [("role", PStr "assistant"); ("content", PStr "b")]] 1) by lia.
  reflexivity.
Defined.

Lemma tail_entry_origin m x :
  In x (tail_entry m) ->
  exists d r, m = PDict d /\ dict_get "role" d = Some (PStr r) /\ x = projection d r.
Proof.
  destruct m; simpl; try tauto.
  destruct (dict_get "role" d) as [r|] eqn:R; simpl; try tauto.
  destruct (role_kept r) eqn:K; simpl; try tauto.
  destruct (role_kept_inv r K) as (s & -> & _).
  intros [<-|[]]. now exists d, s.
Qed.

Lemma slice_from_incl {A} (l : list A) start x :
  In x (slice_from start l) -> In x l.
Proof.
  unfold slice_from. intros H.
  rewrite <- (firstn_skipn (Z.to_nat (if start <? 0
                                       then Z.max 0 (start + Z.of_nat (List.length l))
                                       else Z.min start (Z.of_nat (List.length l)))) l).
  apply in_or_app. now right.
Qed.

(** X3: the initial conversation holds nothing of its own making but
    the prompt: every message of it is the user message of the prompt or
    the role and content of a message of the supplied history; no system
    message is synthesised. *)
Theorem initial_messages_origin (prompt : string) (n : Z)
    (history : option (list pyval)) (x : pyval) :
  In x (initial_messages prompt n history) ->
  x = user_message prompt
  \/ exists msgs d r,
       history = Some msgs /\ In (PDict d) msgs
       /\ dict_get "role" d = Some (PStr r) /\ x = projection d r.
Proof.
  unfold initial_messages. intros H. apply in_app_or in H.
  destruct H as [H|[<-|[]]]; auto. right.
  unfold history_tail in H. destruct history as [[|m ms]|]; try contradiction.
  destruct (n =? 0); [contradiction|].
  unfold _tail_messages in H. apply in_flat_map in H.
  destruct H as (m' & I & T).
  destruct (tail_entry_origin m' x T) as (d & r & -> & R & ->).
  exists (m :: ms), d, r. repeat split; auto.
  eapply slice_from_incl; eauto.
Qed.

Lemma initial_messages_origin_witness :
  In (PDict [("role", PStr "system"); ("content", PStr "be brief")])
     (initial_messages "hi" 2
        (Some [PDict [("role", PStr "system"); ("content", PStr "be brief");
                      ("id", PInt 7)];
               PDict [("role", PStr "tool"); ("content", PStr "x")]]))
  /\ (PDict [("role", PStr "system"); ("content", PStr "be brief")] = user_message "hi"
      \/ exists msgs d r,
           Some [PDict [("role", PStr "system"); ("content", PStr "be brief");
                        ("id", PInt 7)];
                 PDict [("role", PStr "tool"); ("content", PStr "x")]] = Some msgs
           /\ In (PDict d) msgs
           /\ dict_get "role" d = Some (PStr r)
           /\ PDict [("role", PStr "system"); ("content", PStr "be brief")]
              = projection d r).
Proof.
  assert (I : In (PDict [("role", PStr "system"); ("content", PStr "be brief")])
                 (initial_messages "hi" 2
                    (Some [PDict [("role", PStr "system"); ("content", PStr "be brief");
                                  ("id", PInt 7)];
                           PDict [("role", PStr "tool"); ("content", PStr "x")]])))
    by (left; reflexivity).
  split; [exact I|].
  exact (initial_messages_origin "hi" 2 _ _ I).
Defined.

(** ** [_filter_kwargs_for_callable] *)

(** X4: the filter passes exactly the entries of [kw] whose key the
    callable accepts (a declared parameter, or any key when it takes
    [**kwargs]); it adds nothing and changes no value. *)
Theorem filter_kwargs_exact (func : ToolEntry) (kw : kwargs) (kv : string * pyobj) :
  In kv (_filter_kwargs_for_callable func kw)
  <-> In kv kw /\ accepts func (fst kv) = true.
Proof.
  unfold _filter_kwargs_for_callable, accepts.
  destruct (existsb is_var_keyword (signature func)); simpl.
  - tauto.
  - apply filter_In.
Qed.

(** X5: filtering twice for the same callable is filtering once. *)
Theorem filter_kwargs_idempotent (func : ToolEntry) (kw : kwargs) :
  _filter_kwargs_for_callable func (_filter_kwargs_for_callable func kw)
  = _filter_kwargs_for_callable func kw.
Proof.
  unfold _filter_kwargs_for_callable.
  destruct (existsb is_var_keyword (signature func)); auto.
  induction kw as [|kv kw IH]; simpl; auto.
  destruct (existsb (String.eqb (fst kv)) (map name (signature func))) eqn:E; simpl.
  - now rewrite E, IH.
  - exact IH.
Qed.

(** ** [_normalize_tool_calls] *)

Lemma resolve_index_ok i d :
  (exists idx, resolve_index i d = Ok idx) <-> index_readable (PDict d).
Proof.
  unfold resolve_index, index_readable, dict_get_default.
  destruct (dict_get "index" d) as [v|]; [|simpl; split; eauto].
  destruct v; simpl; try (split; eauto; fail).
  destruct (isdigit s) eqn:D.
  - unfold py_int. destruct s as [|c s]; [discriminate|].
    destruct (str_forallb is_decimal (String c s)).
    + destruct (Z.leb_spec (Z.of_nat (String.length (String c s))) int_max_str_digits)
        as [L|L]; cbn [rbind]; (split; [intros (idx & H)|intros H]).
      * intros _. split; [reflexivity|exact L].
      * eauto.
      * discriminate.
      * destruct (H eq_refl) as [_ L']. lia.
    + cbn [rbind]. split.
      * intros (idx & H). discriminate.
      * intros H. destruct (H eq_refl) as [H' _]. discriminate.
  - split; eauto. intros _ H. discriminate.
Qed.

(** X6: the normaliser raises on exactly the inputs on which [int]
    does: it returns a list if and only if every string index of a dict
    entry that passes [isdigit] is made of decimal digits only (no
    superscript digit) and has no more digits than the interpreter
    converts (4300, leading zeros counted). *)
Theorem normalize_returns_iff (l : list pyval) :
  (exists out, _normalize_tool_calls l = Ok out) <-> Forall index_readable l.
Proof.
  unfold _normalize_tool_calls. generalize 0%nat.
  induction l as [|tc l IH]; intros i; simpl.
  - split; eauto.
  - assert (Skip : index_readable tc -> forall P : Prop,
               (Forall index_readable l <-> P) ->
               (Forall index_readable (tc :: l) <-> P)).
    { intros R P HP. rewrite <- HP. split; intros H; [now inversion H|now constructor]. }
    destruct tc; try (apply iff_sym, Skip; [exact I|apply iff_sym, IH]).
    split.
    + intros (out & H).
      destruct (resolve_index i d) as [idx|e] eqn:R; simpl in H; [|discriminate].
      destruct (normalize_from (S i) l) as [out'|e] eqn:N; simpl in H; [|discriminate].
      constructor.
      * apply (resolve_index_ok i d). eauto.
      * apply (IH (S i)). eauto.
    + intros H. inversion H as [|x y R F]; subst.
      apply (resolve_index_ok i d) in R. destruct R as (idx & R).
      apply (IH (S i)) in F. destruct F as (out & N).
      rewrite R, N. simpl. eauto.
Qed.

Lemma normalize_from_survivors l : forall i out,
  normalize_from i l = Ok out ->
  Forall2 reindexed (filter isinstance_dict l) out.
Proof.
  induction l as [|tc l IH]; simpl; intros i out H.
  - inversion H. constructor.
  - destruct tc; simpl; eauto.
    destruct (resolve_index i d) as [idx|e] eqn:R; simpl in H; [|discriminate].
    destruct (normalize_from (S i) l) as [out'|e] eqn:N; simpl in H; [|discriminate].
    inversion H; subst. constructor; eauto.
    exists d, idx. repeat split. eapply resolve_index_int; eauto.
Qed.

(** X7: when the normaliser returns, its result is the dict entries of
    the input, in their order and as many, each with an [int] stored
    under ["index"] and every other key and value as it was. *)
Theorem normalize_survivors (l out : list pyval) :
  _normalize_tool_calls l = Ok out ->
  Forall2 reindexed (filter isinstance_dict l) out.
Proof. apply normalize_from_survivors. Qed.

Lemma normalize_survivors_witness :
  _normalize_tool_calls [PNone; PDict [("id", PStr "a"); ("index", PStr "07")]]
  = Ok [PDict [("id", PStr "a"); ("index", PInt 7)]]
  /\ Forall2 reindexed
       (filter isinstance_dict [PNone; PDict [("id", PStr "a"); ("index", PStr "07")]])
       [PDict [("id", PStr "a"); ("index", PInt 7)]].
Proof.
  split; [reflexivity|].
  apply (normalize_survivors
           [PNone; PDict [("id", PStr "a"); ("index", PStr "07")]]
           [PDict [("id", PStr "a"); ("index", PInt 7)]]).
  reflexivity.
Defined.

Lemma resolve_index_stored i d idx :
  resolve_index i d = Ok idx -> idx = stored_index i d.
Proof.
  unfold resolve_index, stored_index, dict_get_default.
  destruct (dict_get "index" d) as [v|]; [|intros H; now inversion H].
  destruct v; simpl; try (intros H; now inversion H).
  destruct (isdigit s); [|intros H; now inversion H].
  unfold py_int. destruct s as [|c s]; [discriminate|].
  destruct (str_forallb is_decimal (String c s)); [|discriminate].
  destruct (Z.of_nat (String.length (String c s)) <=? int_max_str_digits);
    cbn [rbind]; intros H; now inversion H.
Qed.

Lemma normalize_from_entry l : forall i out k d,
  normalize_from i l = Ok out ->
  nth_error l k = Some (PDict d) ->
  In (PDict (dict_set "index" (stored_index (i + k) d) d)) out.
Proof.
  induction l as [|tc l IH]; intros i out k d H Hk.
  - destruct k; discriminate.
  - destruct k as [|k]; simpl in Hk.
    + inversion Hk; subst tc. simpl in H.
      destruct (resolve_index i d) as [idx|e] eqn:R; simpl in H; [|discriminate].
      destruct (normalize_from (S i) l) as [out'|e]; simpl in H; [|discriminate].
      inversion H; subst. left.
      rewrite Nat.add_0_r. now rewrite (resolve_index_stored i d idx R).
    + assert (Rest : forall out', normalize_from (S i) l = Ok out' ->
                       In (PDict (dict_set "index" (stored_index (i + S k) d) d)) out').
      { intros out' N. replace (i + S k)%nat with (S i + k)%nat by lia. eauto. }
      simpl in H. destruct tc; auto.
      destruct (resolve_index i d0); simpl in H; [|discriminate].
      destruct (normalize_from (S i) l) as [out'|e]; simpl in H; [|discriminate].
      inversion H; subst. right. auto.
Qed.

(** X8: when the normaliser returns, the dict at position [k] of the
    batch is in the result with this index: its own if it is an [int],
    the value of its decimal digits if it is a digit string, and else
    (absent, another string, another type) the position [k], counted in
    the batch as given, dropped entries included. *)
Theorem normalize_entry (l out : list pyval) (k : nat) (d : pydict) :
  _normalize_tool_calls l = Ok out ->
  nth_error l k = Some (PDict d) ->
  In (PDict (dict_set "index" (stored_index k d) d)) out.
Proof. intros H Hk. exact (normalize_from_entry l 0 out k d H Hk). Qed.

Lemma normalize_entry_witness :
  _normalize_tool_calls [PStr "junk"; PDict [("id", PStr "a")]]
  = Ok [PDict [("id", PStr "a"); ("index", PInt 1)]]
  /\ In (PDict (dict_set "index" (stored_index 1 [("id", PStr "a")]) [("id", PStr "a")]))
        [PDict [("id", PStr "a"); ("index", PInt 1)]].
Proof.
  split; [reflexivity|].
  apply (normalize_entry [PStr "junk"; PDict [("id", PStr "a")]]
                         [PDict [("id", PStr "a"); ("index", PInt 1)]] 1
                         [("id", PStr "a")]); reflexivity.
Defined.

Lemma text_calls_normalized blocks : forall i,
  Forall normalized (text_calls_from i blocks).
Proof.
  induction blocks as [|[nm body] blocks IH]; intros i; simpl; constructor; auto.
  eexists. exists (PInt (Z.of_nat i)). repeat split.
Qed.

Lemma extract_normalized content :
  Forall normalized (_extract_text_tool_calls content).
Proof.
  unfold _extract_text_tool_calls.
  destruct (_ || _); [constructor|apply text_calls_normalized].
Qed.

(** X9: the normaliser has nothing to repair in what the text extractor
    produces: it returns the extracted calls unchanged, for every
    content. *)
Theorem normalize_extracted (content : string) :
  _normalize_tool_calls (_extract_text_tool_calls content)
  = Ok (_extract_text_tool_calls content).
Proof.
  apply normalize_from_fixed. apply extract_normalized.
Qed.

(** ** [_extract_text_tool_calls] *)

Lemma take_name_chars s : str_forallb name_char (fst (take_name s)) = true.
Proof.
  induction s as [|c s IH]; simpl; auto.
  destruct (name_char c) eqn:N; simpl; auto.
  destruct (take_name s) as [n r]. simpl in *. now rewrite N, IH.
Qed.

Lemma match_block_name tag s nm body rest :
  match_block tag s = Some (nm, body, rest) ->
  nm <> EmptyString /\ str_forallb name_char nm = true.
Proof.
  unfold match_block.
  destruct (imatch _ s) as [r1|]; [|discriminate].
  pose proof (take_name_chars r1) as C.
  destruct (take_name r1) as [[|c n] r]; [discriminate|].
  destruct r as [|g r2]; [discriminate|].
  destruct g as [[] [] [] [] [] [] [] []]; try discriminate.
  destruct (lazy_until _ r2) as [[b r']|]; [|discriminate].
  intros H. inversion H; subst. split; [discriminate|exact C].
Qed.

Lemma findall_from_names tag s : forall skip,
  Forall (fun nb => fst nb <> EmptyString /\ str_forallb name_char (fst nb) = true)
         (findall_from tag skip s).
Proof.
  induction s as [|c s IH]; intros skip; simpl; [constructor|].
  destruct skip; auto.
  destruct (match_block tag (String c s)) as [[[nm body] rest]|] eqn:M; auto.
  constructor; auto. simpl. eapply match_block_name; eauto.
Qed.

Lemma name_char_nonspace c : name_char c = true -> py_isspace c = false.
Proof.
  unfold name_char. intros H. apply andb_true_iff in H.
  destruct H as [_ H]. now destruct (py_isspace c).
Qed.

Lemma rstrip_name nm : str_forallb name_char nm = true -> rstrip nm = nm.
Proof.
  induction nm as [|c nm IH]; cbn [str_forallb rstrip]; auto.
  intros H. apply andb_true_iff in H. destruct H as [Hc Hn].
  rewrite (IH Hn), (name_char_nonspace c Hc). now destruct nm.
Qed.

(** The [strip] of line 90 has nothing to remove. *)
Lemma strip_name nm : str_forallb name_char nm = true -> strip nm = nm.
Proof.
  intros H. unfold strip.
  assert (L : lstrip nm = nm).
  { destruct nm as [|c nm]; auto. cbn [str_forallb] in H.
    apply andb_true_iff in H. destruct H as [Hc _].
    simpl. now rewrite (name_char_nonspace c Hc). }
  rewrite L. now apply rstrip_name.
Qed.

Lemma text_calls_from_nth blocks : forall i k tc,
  nth_error (text_calls_from i blocks) k = Some tc ->
  exists nm body,
    nth_error blocks k = Some (nm, body) /\ tc = text_call (i + k) nm body.
Proof.
  induction blocks as [|[nm body] blocks IH]; intros i k tc H.
  - destruct k; discriminate.
  - destruct k as [|k]; simpl in H.
    + inversion H; subst. exists nm, body. now rewrite Nat.add_0_r.
    + destruct (IH (S i) k tc H) as (nm' & body' & N & ->).
      exists nm', body'. split; auto. f_equal. lia.
Qed.

Lemma extracted_call_shape content k tc :
  nth_error (_extract_text_tool_calls content) k = Some tc ->
  text_call_shape k tc.
Proof.
  unfold _extract_text_tool_calls.
  destruct (_ || _); [destruct k; discriminate|].
  intros H. destruct (text_calls_from_nth _ 0 k tc H) as (nm & body & N & ->).
  apply nth_error_In in N.
  pose proof (findall_from_names "function" content 0) as F.
  rewrite Forall_forall in F. destruct (F _ N) as (NE & C). simpl in NE, C.
  exists nm, (json_dumps_args (parse_args body)).
  unfold text_call. rewrite (strip_name nm C). simpl. auto.
Qed.

(** X10: the call at position [k] of what the extractor returns has the
    index [k], the identifier [call_text_k], the type [function], and a
    function name that is not empty and holds neither white space nor
    [>]; its arguments are a string. *)
Theorem extract_shape (content : string) (k : nat) (tc : pyval) :
  nth_error (_extract_text_tool_calls content) k = Some tc ->
  text_call_shape k tc.
Proof. apply extracted_call_shape. Qed.

Lemma extract_shape_witness :
  nth_error (_extract_text_tool_calls two_calls) 1
  = Some (text_call 1 "second" EmptyString)
  /\ text_call_shape 1 (text_call 1 "second" EmptyString).
Proof.
  split; [reflexivity|].
  apply (extract_shape two_calls 1 (text_call 1 "second" EmptyString)).
  reflexivity.
Defined.

Lemma to_uint_nonnil n : Nat.to_uint n <> Decimal.Nil.
Proof.
  rewrite <- (DecimalNat.Unsigned.of_to n) at 1.
  rewrite DecimalNat.Unsigned.to_of. apply DecimalFacts.unorm_nonnil.
Qed.

Lemma str_of_nat_inj n m : str_of_nat n = str_of_nat m -> n = m.
Proof.
  unfold str_of_nat. intros H.
  apply DecimalNat.Unsigned.to_uint_inj.
  pose proof (NilZero.usu (Nat.to_uint n) (to_uint_nonnil n)) as A.
  pose proof (NilZero.usu (Nat.to_uint m) (to_uint_nonnil m)) as B.
  rewrite H in A. congruence.
Qed.

Lemma text_calls_ids blocks : forall i,
  map (py_get "id" (PStr EmptyString)) (text_calls_from i blocks)
  = map (fun k => Ok (PStr ("call_text_" ++ str_of_nat k)))
        (seq i (List.length blocks)).
Proof.
  induction blocks as [|[nm body] blocks IH]; intros i; simpl; auto.
  now rewrite IH.
Qed.

Lemma NoDup_map_injective {A B} (f : A -> B) l :
  (forall a b, f a = f b -> a = b) -> NoDup l -> NoDup (map f l).
Proof.
  intros Inj. induction 1 as [|a l N _ IH]; simpl; constructor; auto.
  intros I. apply in_map_iff in I. destruct I as (b & E & I).
  apply Inj in E. now subst.
Qed.

(** X11: the identifiers the extractor generates are unique within the
    batch, for every content. *)
Theorem extract_ids_unique (content : string) :
  NoDup (map (py_get "id" (PStr EmptyString)) (_extract_text_tool_calls content)).
Proof.
  unfold _extract_text_tool_calls.
  destruct (_ || _); [constructor|].
  rewrite text_calls_ids.
  apply NoDup_map_injective; [|apply seq_NoDup].
  intros a b H. inversion H as [E].
  apply str_of_nat_inj.
  revert E. generalize (str_of_nat a) (str_of_nat b). intros x y E.
  now inversion E.
Qed.

Lemma icontains_cons p c s : icontains p s = true -> icontains p (String c s) = true.
Proof.
  intros H. cbn [icontains]. destruct (imatch p (String c s)); auto.
Qed.

Lemma lazy_until_icontains close s : forall b r,
  lazy_until close s = Some (b, r) -> icontains close s = true.
Proof.
  induction s as [|c s IH]; intros b r; cbn [lazy_until icontains].
  - destruct (imatch close EmptyString); [reflexivity|discriminate].
  - destruct (imatch close (String c s)); [reflexivity|].
    destruct (lazy_until close s) as [[b' r']|]; [|discriminate].
    intros _. eauto.
Qed.

Lemma imatch_tail pat p : forall s r,
  imatch pat s = Some r -> icontains p r = true -> icontains p s = true.
Proof.
  induction pat as [|a pat IH]; intros s r; simpl.
  - intros H. now inversion H.
  - destruct s as [|c s]; [discriminate|].
    destruct (Ascii.eqb (lower c) a); [|discriminate].
    intros H I. apply icontains_cons. eauto.
Qed.

Lemma take_name_tail p s : forall n r,
  take_name s = (n, r) -> icontains p r = true -> icontains p s = true.
Proof.
  induction s as [|c s IH]; intros n r; simpl.
  - intros H. now inversion H.
  - destruct (name_char c).
    + destruct (take_name s) as [n' r'] eqn:T. intros H I. inversion H; subst.
      apply icontains_cons. eauto.
    + intros H. now inversion H.
Qed.

Lemma match_block_closed tag s m :
  match_block tag s = Some m -> icontains ("</" ++ tag ++ ">") s = true.
Proof.
  unfold match_block.
  destruct (imatch _ s) as [r1|] eqn:O; [|discriminate].
  destruct (take_name r1) as [[|c n] r] eqn:T; [discriminate|].
  destruct r as [|g r2]; [discriminate|].
  destruct g as [[] [] [] [] [] [] [] []]; try discriminate.
  destruct (lazy_until _ r2) as [[b r']|] eqn:L; [|discriminate].
  intros _. eapply imatch_tail; eauto. eapply take_name_tail; eauto.
  apply icontains_cons. eapply lazy_until_icontains; eauto.
Qed.

Lemma findall_from_unclosed tag s :
  icontains ("</" ++ tag ++ ">") s = false ->
  forall skip, findall_from tag skip s = [].
Proof.
  induction s as [|c s IH]; intros H skip; [reflexivity|].
  assert (H' : icontains ("</" ++ tag ++ ">") s = false).
  { destruct (icontains ("</" ++ tag ++ ">") s) eqn:E; auto.
    now rewrite (icontains_cons _ c s E) in H. }
  cbn [findall_from]. destruct skip; auto.
  destruct (match_block tag (String c s)) as [m|] eqn:M; auto.
  apply match_block_closed in M. congruence.
Qed.

(** A text that holds a pattern holds every beginning of it. *)
Lemma imatch_prefix p q : forall s r,
  imatch (p ++ q) s = Some r -> exists r', imatch p s = Some r'.
Proof.
  induction p as [|a p IH]; intros s r; simpl; eauto.
  destruct s as [|c s]; [discriminate|].
  destruct (Ascii.eqb (lower c) a); [|discriminate]. eauto.
Qed.

Lemma icontains_prefix p q s :
  icontains (p ++ q) s = true -> icontains p s = true.
Proof.
  induction s as [|c s IH]; cbn [icontains].
  - destruct (imatch (p ++ q) EmptyString) as [r|] eqn:E; [|discriminate].
    destruct (imatch_prefix p q _ _ E) as (r' & ->). reflexivity.
  - destruct (imatch (p ++ q) (String c s)) as [r|] eqn:E.
    + destruct (imatch_prefix p q _ _ E) as (r' & ->). reflexivity.
    + intros H. destruct (imatch p (String c s)); auto.
Qed.

(** X12: markup that is not closed gives no call: when the content lacks
    the opening marker in lower case, or lacks, in every casing of its
    letters, the text [</funct] with which every closing tag begins, the
    extractor returns the empty list.  (The criterion stops before the
    letter [i] of the tag: the six letters before it have no other case
    variants than their capitals, in any script.) *)
Theorem extract_needs_both_tags (content : string) :
  contains marker content = false \/ icontains "</funct" content = false ->
  _extract_text_tool_calls content = [].
Proof.
  intros [H|H]; [now apply extract_fast_path|].
  unfold _extract_text_tool_calls.
  destruct (_ || _); auto.
  unfold findall. rewrite (findall_from_unclosed "function" content); auto.
  destruct (icontains ("</" ++ "function" ++ ">") content) eqn:E; auto.
  rewrite (icontains_prefix "</funct" "ion>" content E) in H. discriminate.
Qed.

Lemma extract_needs_both_tags_witness :
  icontains "</funct" "I call <function=search><parameter=q>x</parameter>" = false
  /\ _extract_text_tool_calls "I call <function=search><parameter=q>x</parameter>" = [].
Proof.
  split; [reflexivity|].
  apply (extract_needs_both_tags "I call <function=search><parameter=q>x</parameter>").
  right. reflexivity.
Defined.

(** ** Batches for a session without tools *)

Lemma dispatch_all_not_found host args ses calls : forall s,
  tools_registry ses = [] ->
  Forall (fun tc => exists nm, call_name tc = Ok (PStr nm)) calls ->
  dispatch_all host args ses calls s
  = (Ok tt, {| messages := messages s ++ map not_found_reply calls;
               trace := trace s |}).
Proof.
  induction calls as [|tc calls IH]; intros s R F; simpl.
  - unfold ret. rewrite app_nil_r. now destruct s.
  - inversion F as [|x y (nm & C) F']; subst.
    destruct (dispatch_not_found host args ses tc (PStr nm) s C) as (tc_id & I & D).
    { simpl. now rewrite R. }
    unfold bind at 1. rewrite D, (IH _ R F'). simpl.
    unfold not_found_reply at 2. rewrite C, I. now rewrite <- app_assoc.
Qed.

(** X13: in a session without tools, calls written as text can never
    abort the round: for every content, dispatching the extracted calls
    returns normally, appends one not-found message per call, in order,
    and calls nothing. *)
Theorem text_calls_without_tools host args ses (content : string) (s : state) :
  tools_registry ses = [] ->
  dispatch_all host args ses (_extract_text_tool_calls content) s
  = (Ok tt,
     {| messages := messages s ++ map not_found_reply (_extract_text_tool_calls content);
        trace := trace s |}).
Proof.
  intros R. apply dispatch_all_not_found; auto.
  apply Forall_forall. intros tc I.
  apply In_nth_error in I. destruct I as (k & N).
  destruct (extracted_call_shape content k tc N) as (nm & a & -> & _).
  now exists nm.
Qed.

Lemma text_calls_without_tools_witness :
  tools_registry sample_session = []
  /\ dispatch_all plain_host sample_args sample_session
       (_extract_text_tool_calls two_calls) initial_state
     = (Ok tt,
        {| messages :=
             [tool_message (PStr "call_text_0") (PStr "first") "Tool 'first' not found";
              tool_message (PStr "call_text_1") (PStr "second") "Tool 'second' not found"];
           trace := [] |}).
Proof.
  split; [reflexivity|].
  rewrite (text_calls_without_tools plain_host sample_args sample_session
             two_calls initial_state eq_refl).
  reflexivity.
Defined.

(** ** [_make_function_name_readable] *)

Lemma lower_ascii c : is_ascii c = true -> is_ascii (lower c) = true.
Proof. destruct c as [[] [] [] [] [] [] [] []]; intros H; try discriminate; reflexivity. Qed.

Lemma upper_ascii c : is_ascii c = true -> is_ascii (upper c) = true.
Proof. destruct c as [[] [] [] [] [] [] [] []]; intros H; try discriminate; reflexivity. Qed.

Lemma lower_letter c : is_letter (lower c) = is_letter c.
Proof. destruct c as [[] [] [] [] [] [] [] []]; reflexivity. Qed.

Lemma upper_letter c : is_letter (upper c) = is_letter c.
Proof. destruct c as [[] [] [] [] [] [] [] []]; reflexivity. Qed.

Lemma lower_lower c : lower (lower c) = lower c.
Proof. destruct c as [[] [] [] [] [] [] [] []]; reflexivity. Qed.

Lemma upper_upper c : upper (upper c) = upper c.
Proof. destruct c as [[] [] [] [] [] [] [] []]; reflexivity. Qed.

Lemma lower_underscore c : Ascii.eqb (lower c) "_" = Ascii.eqb c "_".
Proof. destruct c as [[] [] [] [] [] [] [] []]; reflexivity. Qed.

Lemma upper_underscore c : Ascii.eqb (upper c) "_" = Ascii.eqb c "_".
Proof. destruct c as [[] [] [] [] [] [] [] []]; reflexivity. Qed.

Lemma replace_clean s : str_forallb no_underscore (replace_char "_" " " s) = true.
Proof.
  induction s as [|c s IH]; simpl; auto. rewrite IH, andb_true_r.
  unfold no_underscore. destruct (Ascii.eqb_spec c "_"); auto.
  now apply negb_true_iff, Ascii.eqb_neq.
Qed.

Lemma replace_ascii s :
  str_forallb is_ascii s = true ->
  str_forallb is_ascii (replace_char "_" " " s) = true.
Proof.
  induction s as [|c s IH]; cbn [str_forallb replace_char]; auto.
  intros H. apply andb_true_iff in H. destruct H as [Hc Hs].
  apply andb_true_iff. split; auto. now destruct (Ascii.eqb c "_").
Qed.

Lemma replace_length s : String.length (replace_char "_" " " s) = String.length s.
Proof. induction s; simpl; auto. Qed.

Lemma replace_nothing s :
  str_forallb no_underscore s = true -> replace_char "_" " " s = s.
Proof.
  induction s as [|c s IH]; cbn [str_forallb replace_char]; auto.
  intros H. apply andb_true_iff in H. destruct H as [Hc Hs].
  rewrite (IH Hs). unfold no_underscore in Hc.
  now destruct (Ascii.eqb c "_").
Qed.

Lemma title_length s : forall b, String.length (title_from b s) = String.length s.
Proof. induction s; intros b; simpl; auto. Qed.

Lemma title_ascii s : forall b,
  str_forallb is_ascii s = true -> str_forallb is_ascii (title_from b s) = true.
Proof.
  induction s as [|c s IH]; intros b; cbn [str_forallb title_from]; auto.
  intros H. apply andb_true_iff in H. destruct H as [Hc Hs].
  apply andb_true_iff. split; auto.
  destruct b; [now apply lower_ascii|now apply upper_ascii].
Qed.

Lemma title_clean s : forall b,
  str_forallb no_underscore s = true ->
  str_forallb no_underscore (title_from b s) = true.
Proof.
  induction s as [|c s IH]; intros b; cbn [str_forallb title_from]; auto.
  intros H. apply andb_true_iff in H. destruct H as [Hc Hs].
  apply andb_true_iff. split; auto. unfold no_underscore in *.
  destruct b; [now rewrite lower_underscore|now rewrite upper_underscore].
Qed.

Lemma title_title s : forall b, title_from b (title_from b s) = title_from b s.
Proof.
  induction s as [|c s IH]; intros b; cbn [title_from]; auto.
  destruct b.
  - now rewrite lower_lower, lower_letter, IH.
  - now rewrite upper_upper, upper_letter, IH.
Qed.

Lemma clean_contains s :
  str_forallb no_underscore s = true -> contains "_" s = false.
Proof.
  induction s as [|c s IH]; cbn [str_forallb contains]; auto.
  intros H. apply andb_true_iff in H. destruct H as [Hc Hs].
  rewrite (IH Hs), orb_false_r. unfold no_underscore in Hc.
  apply negb_true_iff, Ascii.eqb_neq in Hc.
  destruct (String.prefix "_" (String c s)) eqn:P; [|reflexivity].
  apply String.prefix_correct in P. simpl in P. inversion P. congruence.
Qed.

(** X14: for a name made of ASCII characters, the readable name has the
    length of the name, holds no underscore, and is left as it is when
    made readable once more. *)
Theorem readable_name (func_name : string) :
  str_forallb is_ascii func_name = true ->
  exists r,
    _make_function_name_readable func_name = Ok r
    /\ String.length r = String.length func_name
    /\ contains "_" r = false
    /\ _make_function_name_readable r = Ok r.
Proof.
  intros A. unfold _make_function_name_readable, title.
  rewrite (replace_ascii func_name A).
  set (t := replace_char "_" " " func_name).
  assert (C : str_forallb no_underscore (title_from false t) = true)
    by (apply title_clean, replace_clean).
  exists (title_from false t). repeat split.
  - unfold t. now rewrite title_length, replace_length.
  - now apply clean_contains.
  - rewrite (replace_nothing _ C).
    rewrite (title_ascii t false (replace_ascii func_name A)).
    now rewrite title_title.
Qed.

Lemma readable_name_witness :
  str_forallb is_ascii "get_ticket" = true
  /\ _make_function_name_readable "get_ticket" = Ok "Get Ticket"
  /\ exists r,
       _make_function_name_readable "get_ticket" = Ok r
       /\ String.length r = String.length "get_ticket"
       /\ contains "_" r = false
       /\ _make_function_name_readable r = Ok r.
Proof.
  split; [reflexivity|]. split; [reflexivity|].
  apply (readable_name "get_ticket"). reflexivity.
Defined.

(** The examples of the docstring. *)
Example readable_examples :
  map _make_function_name_readable ["get_ticket"; "search_issues"; "create_comment"]
  = [Ok "Get Ticket"; Ok "Search Issues"; Ok "Create Comment"].
Proof. reflexivity. Qed.

(** ** The conversation only grows *)

Lemma grows_refl s : grows s s.
Proof. exists []. now rewrite app_nil_r. Qed.

Lemma grows_trans s1 s2 s3 : grows s1 s2 -> grows s2 s3 -> grows s1 s3.
Proof.
  intros (a & A) (b & B). exists (a ++ b). now rewrite B, A, app_assoc.
Qed.

Lemma appends_ret {A} (a : A) : appends (ret a).
Proof. intros s. apply grows_refl. Qed.

Lemma appends_raise {A} (e : exn) : appends (@raise A e).
Proof. intros s. apply grows_refl. Qed.

Lemma appends_lift {A} (r : result A) : appends (lift r).
Proof. intros s. apply grows_refl. Qed.

Lemma appends_get_messages : appends get_messages.
Proof. intros s. apply grows_refl. Qed.

Lemma appends_clock : appends clock.
Proof. intros s. apply grows_refl. Qed.

Lemma appends_log e : appends (log e).
Proof. intros s. exists []. simpl. now rewrite app_nil_r. Qed.

Lemma appends_append_message m : appends (append_message m).
Proof. intros s. now exists [m]. Qed.

Lemma appends_bind {A B} (m : M A) (f : A -> M B) :
  appends m -> (forall a, appends (f a)) -> appends (bind m f).
Proof.
  intros Hm Hf s. unfold bind. pose proof (Hm s) as G.
  destruct (m s) as [[a|e] s1]; simpl in *; auto.
  eapply grows_trans; [exact G|apply Hf].
Qed.

Create HintDb appends.
#[export] Hint Resolve appends_ret appends_raise appends_lift appends_get_messages
  appends_clock appends_log appends_append_message : appends.

Ltac appends_steps :=
  repeat first
    [ solve [auto with appends]
    | apply appends_bind; [|intros ?]
    | match goal with
      | |- appends (match ?x with _ => _ end) => destruct x
      | |- appends (if ?b then _ else _) => destruct b
      end ].

Lemma appends_dispatch_all host args ses l : appends (dispatch_all host args ses l).
Proof.
  induction l as [|tc l IH]; simpl; [apply appends_ret|].
  apply appends_bind; [|auto]. unfold dispatch. appends_steps.
Qed.

Lemma appends_round host args ses k : appends (round host args ses k).
Proof.
  pose proof (appends_dispatch_all host args ses) as D.
  unfold round, decide_calls, conclude, announce, emit. appends_steps.
Qed.

Lemma appends_rounds self host args ses n : forall k,
  appends (rounds self host args ses n k).
Proof.
  induction n as [|n IH]; intros k; simpl; [apply appends_raise|].
  apply appends_bind; [apply appends_round|].
  intros [text|]; auto. apply appends_ret.
Qed.

Lemma report_messages args e s : messages (snd (report args e s)) = messages s.
Proof. unfold report. now destruct (__event_emitter__ args). Qed.

(** Where the preparation stops: before the conversation exists, or
    with the initial conversation in place. *)
Lemma prepare_conversation host args r s0 :
  prepare host args initial_state = (r, s0) ->
  (messages s0 = [] /\ exists e, r = Raise e)
  \/ messages s0
     = initial_messages (prompt args) (include_recent_messages args) (__messages__ args).
Proof.
  unfold prepare, bind, emit, lift, ret, raise, put_messages, log.
  destruct (__event_emitter__ args); simpl;
    (destruct (__request__ args); simpl;
     [|intros H; inversion H; left; eauto]);
    (destruct (__user__ args); simpl;
     try (intros H; inversion H; left; eauto; fail));
    (destruct (model_id_present args); simpl;
     try (intros H; inversion H; left; eauto; fail));
    try (destruct (user_model host d); simpl;
         [|intros H; inversion H; left; eauto]);
    (destruct (py_item "id" (__model__ args)); simpl;
     [|intros H; inversion H; left; eauto]);
    (destruct (inherited_tool_ids args) as [[|t ts]|]; simpl;
     try (destruct (get_tools host _ _ _ _); simpl));
    intros H; inversion H; right; reflexivity.
Qed.

Lemma run_conversation self host args :
  let final := messages (snd (subquery self host args)) in
  final = []
  \/ exists more,
       final = initial_messages (prompt args) (include_recent_messages args)
                                (__messages__ args) ++ more.
Proof.
  cbv zeta. unfold subquery, try_reraise, subquery_body, bind.
  destruct (prepare host args initial_state) as [[ses|e] s0] eqn:P.
  - destruct (prepare_conversation host args _ _ P) as [(_ & e & E)|C];
      [discriminate|].
    destruct (appends_rounds self host args ses (Z.to_nat (max_rounds self)) 0 s0)
      as (more & G).
    right. exists more. rewrite <- C.
    destruct (rounds self host args ses _ 0 s0) as [[text|e] s1]; simpl in *; auto.
    now rewrite report_messages.
  - simpl. rewrite report_messages.
    destruct (prepare_conversation host args _ _ P) as [(C & _)|C]; auto.
    right. exists []. now rewrite app_nil_r.
Qed.

(** X15: the conversation is written by appending only.  Whatever the
    conversation is when it starts, and whether it returns or raises, the
    dispatch of one call, one round, and the loop over any number of
    rounds each leave the conversation they found followed by zero or
    more messages: no message already there is changed, removed or moved.
    So the run as a whole ends with the initial conversation followed by
    what the rounds appended (or with no conversation, when it failed
    before building one). *)
Theorem conversation_append_only self host args :
  (forall ses tc s, exists more,
      messages (snd (dispatch host args ses tc s)) = messages s ++ more)
  /\ (forall ses k s, exists more,
         messages (snd (round host args ses k s)) = messages s ++ more)
  /\ (forall ses n k s, exists more,
         messages (snd (rounds self host args ses n k s)) = messages s ++ more)
  /\ (let final := messages (snd (subquery self host args)) in
      final = []
      \/ exists more,
           final = initial_messages (prompt args) (include_recent_messages args)
                                    (__messages__ args) ++ more).
Proof.
  split; [|split; [|split]].
  - intros ses tc s.
    destruct (appends_dispatch_all host args ses [tc] s) as (more & E).
    exists more. rewrite <- E. cbn [dispatch_all]. unfold bind, ret.
    now destruct (dispatch host args ses tc s) as [[u|e] s1].
  - intros ses k s. exact (appends_round host args ses k s).
  - intros ses n k s. exact (appends_rounds self host args ses n k s).
  - apply run_conversation.
Qed.

(** ** One reply per call *)

Lemma call_name_steps tc f nm :
  py_item "function" tc = Ok f -> py_item "name" f = Ok nm -> call_name tc = Ok nm.
Proof. intros F N. unfold call_name. now rewrite F. Qed.

(** What one turn of the dispatch loop leaves: a reply when it returns,
    nothing when it raises. *)
Lemma dispatch_outcome host args ses tc s :
  match dispatch host args ses tc s with
  | (Ok _, s') => exists r, answers tc r /\ messages s' = messages s ++ [r]
  | (Raise _, s') => messages s' = messages s
  end.
Proof.
  unfold dispatch, bind, lift, get_messages, log, clock, append_message.
  destruct (py_item "function" tc) as [f|] eqn:F; simpl; auto.
  destruct (py_item "name" f) as [nm|] eqn:N; simpl; auto.
  destruct (py_get "arguments" (PStr EmptyString) f) as [a|]; simpl; auto.
  destruct (py_get "id" (PStr EmptyString) tc) as [tc_id|] eqn:I; simpl; auto.
  pose proof (call_name_steps tc f nm F N) as C.
  destruct (registry_get nm (tools_registry ses)) as [[func|]|]; simpl; auto.
  - destruct (rbind (as_str "strip" (py_or a (PStr EmptyString))) _) as [parsed|];
      simpl; auto.
    unfold raise, ret.
    destruct (other_keys parsed && existsb is_var_keyword (signature func));
      simpl; auto.
    destruct (callable func _ _) as [res|]; simpl; auto.
    destruct (match res with PStr s0 => Ok s0 | _ => json_dumps host res end)
      as [content|]; simpl; auto.
    eexists. split; [|reflexivity]. now exists tc_id, nm, content.
  - eexists. split; [|reflexivity]. now exists tc_id, nm, (not_found_notice nm).
Qed.

Lemma dispatch_all_replies host args ses calls : forall s s',
  dispatch_all host args ses calls s = (Ok tt, s') ->
  exists replies,
    messages s' = messages s ++ replies /\ Forall2 answers calls replies.
Proof.
  induction calls as [|tc calls IH]; intros s s'; simpl.
  - unfold ret. intros H. inversion H; subst. exists []. rewrite app_nil_r. auto.
  - unfold bind at 1. pose proof (dispatch_outcome host args ses tc s) as D.
    destruct (dispatch host args ses tc s) as [[u|e] s1]; [|discriminate].
    destruct D as (r & A & M). intros H.
    destruct (IH s1 s' H) as (replies & M' & F).
    exists (r :: replies). split; [|constructor; auto].
    rewrite M', M, <- app_assoc. reflexivity.
Qed.

(** X16: a batch that is dispatched without an error leaves exactly one
    tool message per call, in the order of the calls, each tagged with
    the identifier and the function name of its call. *)
Theorem dispatch_one_reply_per_call host args ses (calls : list pyval) (s s' : state) :
  dispatch_all host args ses calls s = (Ok tt, s') ->
  exists replies,
    messages s' = messages s ++ replies /\ Forall2 answers calls replies.
Proof. apply dispatch_all_replies. Qed.

Lemma dispatch_one_reply_per_call_witness :
  exists s',
    dispatch_all echo_host sample_args
      {| user := OUser []; request := "req"; model_id := PStr "m1"; params := [];
         tool_ids := None; tools_registry := [("tracker", echo_tool)] |}
      [structured_call "tracker" "{}"; structured_call "ghost" "{}"] initial_state
    = (Ok tt, s')
    /\ exists replies,
         messages s' = messages initial_state ++ replies
         /\ Forall2 answers [structured_call "tracker" "{}"; structured_call "ghost" "{}"]
                     replies.
Proof.
  eexists. split; [reflexivity|].
  apply (dispatch_one_reply_per_call echo_host sample_args
           {| user := OUser []; request := "req"; model_id := PStr "m1"; params := [];
              tool_ids := None; tools_registry := [("tracker", echo_tool)] |}
           [structured_call "tracker" "{}"; structured_call "ghost" "{}"]
           initial_state).
  reflexivity.
Defined.

(** X17: a call whose dispatch raises leaves no message: the
    conversation is as it was before the call. *)
Theorem dispatch_failure_appends_nothing host args ses (tc : pyval) (s s' : state) e :
  dispatch host args ses tc s = (Raise e, s') -> messages s' = messages s.
Proof.
  intros H. pose proof (dispatch_outcome host args ses tc s) as D.
  now rewrite H in D.
Qed.

Lemma dispatch_failure_appends_nothing_witness :
  dispatch failing_host sample_args
    {| user := OUser []; request := "req"; model_id := PStr "m1"; params := [];
       tool_ids := None; tools_registry := [("tracker", failing_tool)] |}
    (structured_call "tracker" EmptyString) initial_state
  = (Raise (HostError "tracker is down"),
     {| messages := []; trace := [EvInvoke "tracker" []] |})
  /\ messages {| messages := []; trace := [EvInvoke "tracker" []] |}
     = messages initial_state.
Proof.
  split; [reflexivity|].
  apply (dispatch_failure_appends_nothing failing_host sample_args
           {| user := OUser []; request := "req"; model_id := PStr "m1"; params := [];
              tool_ids := None; tools_registry := [("tracker", failing_tool)] |}
           (structured_call "tracker" EmptyString) initial_state
           {| messages := []; trace := [EvInvoke "tracker" []] |}
           (HostError "tracker is down")).
  reflexivity.
Defined.

Lemma arguments_of_inv tc a :
  arguments_of tc = Ok a ->
  exists f argv,
    py_item "function" tc = Ok f
    /\ py_get "arguments" (PStr EmptyString) f = Ok argv
    /\ a = py_or argv (PStr EmptyString).
Proof.
  unfold arguments_of.
  destruct (py_item "function" tc) as [f|] eqn:F; simpl; [|discriminate].
  destruct (py_get "arguments" (PStr EmptyString) f) as [argv|] eqn:G; simpl;
    [|discriminate].
  intros H. inversion H. exists f, argv. repeat split; auto.
Qed.

(** X18: arguments that are not valid JSON are fatal for the call: when
    a registered tool is called with an argument text that is not blank
    and that [json.loads] refuses, the dispatch raises that error; the
    tool is not called and nothing is appended. *)
Theorem dispatch_malformed_arguments host args ses (tc : pyval) nm func a e (s : state) :
  call_name tc = Ok (PStr nm) ->
  dict_get nm (tools_registry ses) = Some func ->
  arguments_of tc = Ok (PStr a) ->
  strip a <> EmptyString ->
  json_loads host a = Raise e ->
  dispatch host args ses tc s = (Raise e, s).
Proof.
  intros C R A B J.
  destruct (arguments_of_inv tc _ A) as (f & argv & F & G & E).
  assert (N : py_item "name" f = Ok (PStr nm)).
  { unfold call_name in C. now rewrite F in C. }
  assert (I : exists tc_id, py_get "id" (PStr EmptyString) tc = Ok tc_id).
  { destruct tc; try discriminate. simpl. eauto. }
  destruct I as (tc_id & I).
  unfold dispatch, bind, lift. rewrite F, N, G, I. simpl. rewrite R. simpl.
  rewrite <- E. simpl.
  destruct (String.eqb_spec (strip a) EmptyString); [contradiction|].
  rewrite J. reflexivity.
Qed.

Lemma dispatch_malformed_arguments_witness :
  json_loads brace_host "{" = Raise JSONDecodeError
  /\ dispatch brace_host sample_args (tracker_session failing_tool)
       (structured_call "tracker" "{") initial_state
     = (Raise JSONDecodeError, initial_state).
Proof.
  split; [reflexivity|].
  apply (dispatch_malformed_arguments brace_host sample_args
           (tracker_session failing_tool)
           (structured_call "tracker" "{") "tracker" failing_tool "{"
           JSONDecodeError initial_state);
    try reflexivity.
  discriminate.
Defined.

(** X19: blank arguments are an empty object: a registered tool called
    with an absent, empty or all-blank argument text is handed the
    context values its signature accepts and nothing else, [json.loads]
    is not consulted, and a string it returns becomes the content of
    the reply as it is. *)
Theorem dispatch_blank_arguments host args ses (tc : pyval) nm func a r (s : state) :
  call_name tc = Ok (PStr nm) ->
  dict_get nm (tools_registry ses) = Some func ->
  arguments_of tc = Ok (PStr a) ->
  strip a = EmptyString ->
  callable func (S (List.length (trace s)))
           (_filter_kwargs_for_callable func (context args ses (messages s)))
  = Ok (PStr r) ->
  exists tc_id,
    py_get "id" (PStr EmptyString) tc = Ok tc_id
    /\ dispatch host args ses tc s
       = (Ok tt,
          {| messages := messages s ++ [tool_message tc_id (PStr nm) r];
             trace := trace s
                      ++ [EvInvoke nm (_filter_kwargs_for_callable func
                                         (context args ses (messages s)))] |}).
Proof.
  intros C R A B K.
  destruct (arguments_of_inv tc _ A) as (f & argv & F & G & E).
  assert (N : py_item "name" f = Ok (PStr nm)).
  { unfold call_name in C. now rewrite F in C. }
  assert (I : exists tc_id, py_get "id" (PStr EmptyString) tc = Ok tc_id).
  { destruct tc; try discriminate. simpl. eauto. }
  destruct I as (tc_id & I). exists tc_id. split; auto.
  unfold dispatch, bind, lift, get_messages, log, clock, append_message.
  rewrite F, N, G, I. simpl. rewrite R. simpl. rewrite <- E. simpl.
  rewrite B. simpl.
  change (call_kwargs args ses [] (messages s)) with (context args ses (messages s)).
  rewrite length_app. simpl. rewrite Nat.add_1_r, K. reflexivity.
Qed.

Lemma dispatch_blank_arguments_witness :
  strip "  " = EmptyString
  /\ exists tc_id,
       py_get "id" (PStr EmptyString) (structured_call "tracker" "  ") = Ok tc_id
       /\ dispatch echo_host sample_args
            {| user := OUser []; request := "req"; model_id := PStr "m1"; params := [];
               tool_ids := None; tools_registry := [("tracker", echo_tool)] |}
            (structured_call "tracker" "  ") initial_state
          = (Ok tt,
             {| messages := [tool_message tc_id (PStr "tracker") "pong"];
                trace := [EvInvoke "tracker" [("__user__", OVal (__user__ sample_args))]] |}).
Proof.
  split; [reflexivity|].
  apply (dispatch_blank_arguments echo_host sample_args
           {| user := OUser []; request := "req"; model_id := PStr "m1"; params := [];
              tool_ids := None; tools_registry := [("tracker", echo_tool)] |}
           (structured_call "tracker" "  ") "tracker" echo_tool "  " "pong"
           initial_state); reflexivity.
Defined.

(** ** How a round ends *)

Lemma rstrip_head c s :
  py_isspace c = false -> rstrip (String c s) = String c (rstrip s).
Proof. intros H. cbn [rstrip]. rewrite H. now destruct (rstrip s). Qed.

Lemma rstrip_rstrip s : rstrip (rstrip s) = rstrip s.
Proof.
  induction s as [|c s IH]; auto.
  cbn [rstrip]. destruct (rstrip s) as [|r rs] eqn:R.
  - destruct (py_isspace c) eqn:W; auto. cbn [rstrip]. now rewrite W.
  - cbn [rstrip]. cbn [rstrip] in IH. rewrite IH. reflexivity.
Qed.

(** Stripping a stripped text changes nothing. *)
Lemma strip_strip s : strip (strip s) = strip s.
Proof.
  unfold strip.
  assert (L : forall t, lstrip (rstrip (lstrip t)) = rstrip (lstrip t)).
  { induction t as [|c t IH]; auto.
    cbn [lstrip]. destruct (py_isspace c) eqn:W; auto.
    rewrite (rstrip_head c t W). cbn [lstrip]. now rewrite W. }
  now rewrite L, rstrip_rstrip.
Qed.

Lemma decide_calls_messages msg s :
  messages (snd (decide_calls msg s)) = messages s.
Proof.
  rewrite decide_calls_steps.
  destruct (structured_calls msg) as [[|tc l]|e]; simpl; auto.
  destruct (rbind (extract_dyn (content_of msg)) _) as [[|tc l]|e]; simpl; auto.
  destruct (as_str "split" (content_of msg)); simpl; auto.
Qed.

Lemma announce_messages args calls s :
  messages (snd (announce args calls s)) = messages s.
Proof.
  unfold announce, bind, lift, log.
  destruct (__event_emitter__ args && (2 <=? List.length calls)%nat); simpl; auto.
  destruct (mapM call_name calls) as [names|]; simpl; auto.
  destruct (mapM (as_str "replace") names); simpl; auto.
Qed.

Lemma round_returns host args ses k s text s' :
  round host args ses k s = (Ok (Some text), s') ->
  messages s' = messages s /\ exists raw, text = strip raw.
Proof.
  rewrite round_steps. cbv zeta.
  destruct (chat_completion host k _) as [data|e]; [|discriminate].
  destruct (message_of data) as [msg|e]; [|discriminate].
  pose proof (decide_calls_messages msg
                (requested (form_data args ses (messages s)) s)) as D.
  destruct (decide_calls msg _) as [[[calls msg']|e] s1]; [|discriminate].
  simpl in *. destruct calls as [|tc calls].
  - unfold conclude, bind, emit, lift, ret, log, py_strip.
    destruct (__event_emitter__ args); simpl;
      (destruct (content_of msg') as [| | | |raw| |]; simpl; try discriminate);
      intros H; inversion H; subst; simpl; split; eauto.
  - unfold conclude, bind.
    destruct (announce args (tc :: calls) s1) as [[u|e] s2]; [|discriminate].
    destruct (append_message _ s2) as [[u'|e] s3]; [|discriminate].
    destruct (dispatch_all host args ses (tc :: calls) s3) as [[u''|e] s4];
      discriminate.
Qed.

(** X20: the round that ends the loop writes nothing to the
    conversation: when a round returns the answer, the conversation is
    as the round found it, and the answer is a stripped text. *)
Theorem terminal_round_appends_nothing host args ses (k : nat) (s s' : state) text :
  round host args ses k s = (Ok (Some text), s') ->
  messages s' = messages s /\ strip text = text.
Proof.
  intros H. destruct (round_returns host args ses k s text s' H) as (M & raw & ->).
  split; auto. apply strip_strip.
Qed.

Lemma terminal_round_appends_nothing_witness :
  fst (round plain_host sample_args sample_session 0 initial_state)
  = Ok (Some "Two tickets are open.")
  /\ messages (snd (round plain_host sample_args sample_session 0 initial_state))
     = messages initial_state
  /\ strip "Two tickets are open." = "Two tickets are open.".
Proof.
  split; [reflexivity|].
  apply (terminal_round_appends_nothing plain_host sample_args sample_session 0
           initial_state
           (snd (round plain_host sample_args sample_session 0 initial_state))
           "Two tickets are open.").
  vm_compute. reflexivity.
Defined.

(** X21: a round that goes on to the next one has appended one assistant
    message that records the calls of the round, of which there is at
    least one, followed by one tool message per call, in the order of
    the calls. *)
Theorem round_appends_turn host args ses (k : nat) (s s' : state) :
  round host args ses k s = (Ok None, s') ->
  exists content tc calls replies,
    messages s'
    = messages s ++ assistant_message content (tc :: calls) :: replies
    /\ Forall2 answers (tc :: calls) replies.
Proof.
  intros H. apply round_falls_through in H.
  destruct H as (data & msg & tc & calls & msg' & s1 & _ & _ & D & C).
  pose proof (decide_calls_messages msg
                (requested (form_data args ses (messages s)) s)) as M1.
  rewrite D in M1. simpl in M1.
  unfold conclude, bind in C.
  pose proof (announce_messages args (tc :: calls) s1) as M2.
  destruct (announce args (tc :: calls) s1) as [[u|e] s2]; [|discriminate].
  simpl in M2. unfold append_message at 1 in C.
  destruct (dispatch_all host args ses (tc :: calls) _) as [[[]|e] s4] eqn:DA;
    [|discriminate].
  unfold ret in C. inversion C; subst s4.
  destruct (dispatch_all_replies host args ses (tc :: calls) _ _ DA)
    as (replies & M & F).
  exists (content_of msg'), tc, calls, replies. split; auto.
  rewrite M. simpl. rewrite M2, M1, <- app_assoc. reflexivity.
Qed.

Lemma round_appends_turn_witness :
  fst (round ghost_host sample_args sample_session 0 initial_state) = Ok None
  /\ exists content tc calls replies,
       messages (snd (round ghost_host sample_args sample_session 0 initial_state))
       = messages initial_state ++ assistant_message content (tc :: calls) :: replies
       /\ Forall2 answers (tc :: calls) replies.
Proof.
  split; [reflexivity|].
  apply (round_appends_turn ghost_host sample_args sample_session 0 initial_state
           (snd (round ghost_host sample_args sample_session 0 initial_state))).
  vm_compute. reflexivity.
Defined.

(** ** How a run ends *)

Lemma rounds_returns self host args ses n : forall k s text s',
  rounds self host args ses n k s = (Ok text, s') ->
  (exists raw, text = strip raw) /\ (1 <= rounds_executed (trace s'))%nat.
Proof.
  induction n as [|n IH]; intros k s text s'; [discriminate|].
  rewrite rounds_step. pose proof (round_count host args ses k s) as C.
  destruct (round host args ses k s) as [[[t|]|e] s1] eqn:R; try discriminate.
  - intros H. inversion H; subst. split.
    + now destruct (round_returns host args ses k s text s' R).
    + simpl in C. lia.
  - apply IH.
Qed.

(** X22: a run that returns has asked the completion service at least
    once, and what it returns carries no white space at either end. *)
Theorem returned_text_is_trimmed self host args (text : string) :
  fst (subquery self host args) = Ok text ->
  strip text = text
  /\ (1 <= rounds_executed (trace (snd (subquery self host args))))%nat.
Proof.
  unfold subquery, try_reraise, subquery_body, bind.
  destruct (prepare host args initial_state) as [[ses|e] s0]; [|discriminate].
  destruct (rounds self host args ses _ 0 s0) as [[t|e] s1] eqn:R; [|discriminate].
  simpl. intros H. inversion H; subst.
  destruct (rounds_returns self host args ses _ 0 s0 text s1 R) as ((raw & ->) & C).
  split; auto. apply strip_strip.
Qed.

Lemma returned_text_is_trimmed_witness :
  fst (subquery Tools_init plain_host sample_args) = Ok "Two tickets are open."
  /\ strip "Two tickets are open." = "Two tickets are open."
  /\ (1 <= rounds_executed (trace (snd (subquery Tools_init plain_host sample_args))))%nat.
Proof.
  split; [vm_compute; reflexivity|].
  apply (returned_text_is_trimmed Tools_init plain_host sample_args
           "Two tickets are open.").
  vm_compute. reflexivity.
Defined.

(** X23: a missing request handle, a missing user or a missing model
    identifier is refused before anything is done: the run raises a
    [RuntimeError], the conversation is still empty, no completion is
    requested and, but for the opening status and the error report to
    the sink, nothing happens. *)
Theorem subquery_refuses self host args :
  __request__ args = None \/ __user__ args = PNone \/ model_id_present args = false ->
  exists msg,
    subquery self host args
    = (Raise (RuntimeError msg),
       {| messages := [];
          trace := if __event_emitter__ args
                   then [EvStatus false false; EvErrorReport (RuntimeError msg)]
                   else [] |}).
Proof.
  unfold subquery, try_reraise, subquery_body, prepare, report, emit,
    bind, raise, ret, lift, log, initial_state.
  intros [H|[H|H]].
  - rewrite H. destruct (__event_emitter__ args); simpl; eauto.
  - rewrite H.
    destruct (__event_emitter__ args); simpl;
      destruct (__request__ args); simpl; eauto.
  - rewrite H.
    destruct (__event_emitter__ args); simpl;
      (destruct (__request__ args); simpl; eauto);
      destruct (__user__ args); simpl; eauto.
Qed.

Lemma subquery_refuses_witness :
  exists msg,
    subquery Tools_init plain_host
      {| prompt := "hi"; include_recent_messages := 0; __user__ := PDict [];
         __metadata__ := PNone; __messages__ := None; __files__ := PNone;
         __model__ := PDict [("id", PStr EmptyString)]; __request__ := Some "req";
         __event_emitter__ := false |}
    = (Raise (RuntimeError msg), {| messages := []; trace := [] |}).
Proof.
  apply (subquery_refuses Tools_init plain_host
           {| prompt := "hi"; include_recent_messages := 0; __user__ := PDict [];
              __metadata__ := PNone; __messages__ := None; __files__ := PNone;
              __model__ := PDict [("id", PStr EmptyString)]; __request__ := Some "req";
              __event_emitter__ := false |}).
  right. right. reflexivity.
Defined.

(** ** What the completion service is asked *)

Lemma prepare_session host args ses s0 :
  prepare host args initial_state = (Ok ses, s0) ->
  params ses = inherited_params args
  /\ tool_ids ses = inherited_tool_ids args
  /\ py_item "id" (__model__ args) = Ok (model_id ses).
Proof.
  unfold prepare, bind, emit, lift, ret, raise, put_messages, log.
  destruct (__event_emitter__ args); simpl;
    (destruct (__request__ args); simpl; [|discriminate]);
    (destruct (__user__ args); simpl; try discriminate);
    (destruct (model_id_present args); simpl; [|discriminate]);
    try discriminate;
    (destruct (user_model host d); simpl; [|discriminate]);
    (destruct (py_item "id" (__model__ args)); simpl; [|discriminate]);
    (destruct (inherited_tool_ids args) as [[|t ts]|]; simpl;
     try (destruct (get_tools host _ _ _ _); simpl; [|discriminate]));
    intros H; inversion H; repeat split.
Qed.

Lemma request_round host args ses k :
  adds (request_of args ses) (round host args ses k).
Proof.
  unfold round, decide_calls, conclude, announce, emit.
  assert (D : forall l, adds (request_of args ses) (dispatch_all host args ses l)).
  { induction l as [|tc l IH]; simpl; [apply adds_ret|].
    apply adds_bind; [|auto].
    unfold dispatch. adds_steps; exact I. }
  adds_steps; try exact I; auto. simpl. eauto.
Qed.

Lemma no_completion_in fd new :
  Forall no_completion new -> ~ In (EvCompletion fd) new.
Proof.
  intros F I. rewrite Forall_forall in F. specialize (F _ I). discriminate.
Qed.

(** Every completion request of a run is made for the session the
    preparation returned. *)
Lemma run_requests self host args fd :
  In (EvCompletion fd) (trace (snd (subquery self host args))) ->
  exists ses s0 msgs,
    prepare host args initial_state = (Ok ses, s0) /\ fd = form_data args ses msgs.
Proof.
  unfold subquery, try_reraise, subquery_body, bind.
  destruct (adds_prepare host args initial_state) as (n0 & E0 & F0).
  destruct (prepare host args initial_state) as [[ses|e] s0] eqn:P; simpl in E0.
  - destruct (adds_rounds self host args ses (request_of args ses)
                (Z.to_nat (max_rounds self)) (request_round host args ses) 0 s0)
      as (n1 & E1 & F1).
    assert (In1 : In (EvCompletion fd) (trace s0 ++ n1) ->
                  exists ses' s0' msgs,
                    (Ok ses, s0) = (Ok ses', s0') /\ fd = form_data args ses' msgs).
    { intros I. apply in_app_or in I. destruct I as [I|I].
      - rewrite E0 in I. now apply no_completion_in in I.
      - rewrite Forall_forall in F1. destruct (F1 _ I) as (msgs & ->).
        now exists ses, s0, msgs. }
    destruct (rounds self host args ses _ 0 s0) as [[text|e] s1]; simpl in *.
    + rewrite E1. exact In1.
    + destruct (adds_report args e s1) as (n2 & E2 & F2).
      rewrite E2, E1. intros I. apply in_app_or in I. destruct I as [I|I]; auto.
      now apply no_completion_in in I.
  - simpl. destruct (adds_report args e s0) as (n2 & E2 & F2).
    rewrite E2, E0. simpl. intros I. apply in_app_or in I.
    destruct I as [I|I]; now apply no_completion_in in I.
Qed.

(** X24: every request to the completion service is made with
    [stream] off, for the model of [__model__["id"]], and with
    [function_calling] set to [native] in its parameters, whatever the
    inherited parameters said. *)
Theorem requests_force_native self host args (fd : pyval) :
  In (EvCompletion fd) (trace (snd (subquery self host args))) ->
  exists msgs p,
    py_item "stream" fd = Ok (PBool false)
    /\ py_item "messages" fd = Ok (PList msgs)
    /\ py_item "params" fd = Ok (PDict p)
    /\ dict_get "function_calling" p = Some (PStr "native")
    /\ py_item "model" fd = py_item "id" (__model__ args).
Proof.
  intros I. destruct (run_requests self host args fd I) as (ses & s0 & msgs & P & ->).
  destruct (prepare_session host args ses s0 P) as (Pa & _ & Mo).
  exists msgs, (params ses). repeat split; auto;
    try (rewrite Pa; unfold inherited_params; apply dict_get_set_eq);
    try (now rewrite Mo).
Qed.

Lemma requests_force_native_witness :
  In (EvCompletion (form_data sample_args ghost_session
                      [user_message "Which tickets are open?"]))
     (trace (snd (subquery Tools_init plain_host sample_args)))
  /\ exists msgs p,
       py_item "stream" (form_data sample_args ghost_session
                           [user_message "Which tickets are open?"])
       = Ok (PBool false)
       /\ py_item "messages" (form_data sample_args ghost_session
                               [user_message "Which tickets are open?"])
          = Ok (PList msgs)
       /\ py_item "params" (form_data sample_args ghost_session
                             [user_message "Which tickets are open?"])
          = Ok (PDict p)
       /\ dict_get "function_calling" p = Some (PStr "native")
       /\ py_item "model" (form_data sample_args ghost_session
                            [user_message "Which tickets are open?"])
          = py_item "id" (__model__ sample_args).
Proof.
  assert (I : In (EvCompletion (form_data sample_args ghost_session
                                  [user_message "Which tickets are open?"]))
                 (trace (snd (subquery Tools_init plain_host sample_args))))
    by (vm_compute; right; left; reflexivity).
  split; [exact I|].
  exact (requests_force_native Tools_init plain_host sample_args _ I).
Defined.

Lemma kept_ids_clean l :
  Forall (fun t => String.eqb (str_lower t) "subquery" = false /\ In (PStr t) l)
         (flat_map keep_tool_id l).
Proof.
  induction l as [|v l IH]; simpl; [constructor|].
  apply Forall_app. split.
  - destruct v; simpl; try constructor.
    destruct (String.eqb (str_lower s) "subquery") eqn:E; constructor; auto.
  - eapply Forall_impl; [|exact IH]. intros t [A B]. auto.
Qed.

(** X25: the tool itself is never passed on: when a completion request
    carries [tool_ids], they are a list, not empty, of strings taken
    from the inherited [tool_ids], none of which is [subquery] in any
    letter casing. *)
Theorem requests_exclude_subquery self host args (fd v : pyval) :
  In (EvCompletion fd) (trace (snd (subquery self host args))) ->
  py_item "tool_ids" fd = Ok v ->
  exists ids inherited,
    v = PList (map PStr ids)
    /\ ids <> []
    /\ py_item "tool_ids" (__metadata__ args) = Ok (PList inherited)
    /\ Forall (fun t => String.eqb (str_lower t) "subquery" = false
                        /\ In (PStr t) inherited) ids.
Proof.
  intros I. destruct (run_requests self host args fd I) as (ses & s0 & msgs & P & ->).
  destruct (prepare_session host args ses s0 P) as (_ & T & _).
  unfold form_data, py_item, dict_item. rewrite T. unfold inherited_tool_ids.
  destruct (__metadata__ args) as [| | | | | |md];
    try (destruct (py_truthy _); simpl; discriminate).
  unfold dict_get_default.
  destruct (dict_get "tool_ids" md) as [[| | | | |l|]|] eqn:G;
    try (destruct (py_truthy _); simpl; discriminate).
  pose proof (kept_ids_clean l) as K.
  destruct (flat_map keep_tool_id l) as [|t ts];
    [destruct (py_truthy _); simpl; discriminate|].
  intros H. exists (t :: ts), l. repeat split; auto; try discriminate.
  destruct (py_truthy (__files__ args)); simpl in H; now inversion H.
Qed.

Lemma requests_exclude_subquery_witness :
  In (EvCompletion (form_data sample_args ghost_session
                      [user_message "Which tickets are open?"]))
     (trace (snd (subquery Tools_init plain_host sample_args)))
  /\ py_item "tool_ids" (__metadata__ sample_args)
     = Ok (PList [PStr "tracker"; PStr "SubQuery"])
  /\ py_item "tool_ids" (form_data sample_args ghost_session
                           [user_message "Which tickets are open?"])
     = Ok (PList [PStr "tracker"])
  /\ exists ids inherited,
       PList [PStr "tracker"] = PList (map PStr ids)
       /\ ids <> []
       /\ py_item "tool_ids" (__metadata__ sample_args) = Ok (PList inherited)
       /\ Forall (fun t => String.eqb (str_lower t) "subquery" = false
                           /\ In (PStr t) inherited) ids.
Proof.
  assert (I : In (EvCompletion (form_data sample_args ghost_session
                                  [user_message "Which tickets are open?"]))
                 (trace (snd (subquery Tools_init plain_host sample_args))))
    by (vm_compute; right; left; reflexivity).
  split; [exact I|]. split; [reflexivity|]. split; [reflexivity|].
  exact (requests_exclude_subquery Tools_init plain_host sample_args _ _ I eq_refl).
Defined.

(** ** Without a sink *)

Lemma quiet_run self host args :
  __event_emitter__ args = false ->
  adds (fun e => is_notification e = false)
       (try_reraise (subquery_body self host args) (report args)).
Proof.
  intros H.
  assert (D : forall ses l, adds (fun e => is_notification e = false)
                                 (dispatch_all host args ses l)).
  { intros ses. induction l as [|tc l IH]; simpl; [apply adds_ret|].
    apply adds_bind; [|auto]. unfold dispatch. adds_steps; reflexivity. }
  apply adds_try_reraise.
  - unfold subquery_body. apply adds_bind.
    + unfold prepare, emit. rewrite H. adds_steps.
    + intros ses. apply adds_rounds. intros k.
      unfold round, decide_calls, conclude, announce, emit. rewrite H. simpl.
      adds_steps; auto; reflexivity.
  - intros e. unfold report. rewrite H. apply adds_ret.
Qed.

(** X26: when no sink was injected, a run notifies nobody: its trace
    holds neither a status nor an error report, whatever happens. *)
Theorem no_sink_no_notification self host args :
  __event_emitter__ args = false ->
  Forall (fun e => is_notification e = false)
         (trace (snd (subquery self host args))).
Proof.
  intros H. unfold subquery.
  destruct (quiet_run self host args H initial_state) as (new & E & F).
  now rewrite E.
Qed.

Lemma no_sink_no_notification_witness :
  __event_emitter__ silent_args = false
  /\ fst (subquery Tools_init ghost_host silent_args)
     = Raise (RuntimeError "[Subquery] exceeded max_rounds=8")
  /\ Forall (fun e => is_notification e = false)
            (trace (snd (subquery Tools_init ghost_host silent_args))).
Proof.
  split; [reflexivity|]. split; [vm_compute; reflexivity|].
  apply (no_sink_no_notification Tools_init ghost_host silent_args).
  reflexivity.
Defined.
